(** * Lokus file synchronisation example: a shallow embedding

    This development embeds [docs/mcp-server/examples/file-sync.py] and states
    the behaviour of its planner, executor, manager and protocol client.

    Conventions of the embedding:
    - a Python [float] is a primitive float, compared with IEEE equality
      ([PrimFloat.eqb]), so that [!=] is [negb (eqb _ _)];
    - a [dict] is a [gmap], a [set] a [gset]; [Optional[T]] is [option T];
    - [str] is [string]; a file is the text that [read()] returns;
    - an [async def] that raises is a computation returning [Raise e];
      only subclasses of [Exception] are modelled (no cancellation);
    - calls to [logger] leave no trace in the state and are dropped. *)

From Stdlib Require Import ZArith String Ascii List Floats Lia.
From stdpp Require Import gmap strings list fin_maps.

Open Scope string_scope.

(** ** Strings as Python uses them *)

(** [strip_prefix pre s] is [Some r] exactly when [s = pre ++ r]. *)
Fixpoint strip_prefix (pre s : string) : option string :=
  match pre, s with
  | EmptyString, _ => Some s
  | String a pre', String b s' =>
      if Ascii.eqb a b then strip_prefix pre' s' else None
  | String _ _, EmptyString => None
  end.

(** [s.startswith(pre)] *)
Definition startswith (pre s : string) : bool :=
  match strip_prefix pre s with Some _ => true | None => false end.

(** [s.lstrip('/')] *)
Fixpoint lstrip_slash (s : string) : string :=
  match s with
  | String c s' => if Ascii.eqb c "/" then lstrip_slash s' else s
  | EmptyString => EmptyString
  end.

(** [s.replace(old, new)] for a non-empty [old]: occurrences are found from
    the left and do not overlap.  [skip] counts the characters of a match that
    are still to be dropped. *)
Fixpoint replace_from (old new : string) (skip : nat) (s : string) : string :=
  match s with
  | EmptyString => EmptyString
  | String c s' =>
      match skip with
      | S k => replace_from old new k s'
      | O =>
          if startswith old s
          then new +:+ replace_from old new (Nat.pred (String.length old)) s'
          else String c (replace_from old new 0 s')
      end
  end.

Definition replace (old new s : string) : string :=
  match old with
  | EmptyString => s
  | _ => replace_from old new 0 s
  end.

(** [c in s] for a single character *)
Fixpoint contains_char (c : ascii) (s : string) : bool :=
  match s with
  | EmptyString => false
  | String d s' => if Ascii.eqb c d then true else contains_char c s'
  end.

(** ** Data model *)

(** [class FileMetadata] *)
Record FileMetadata := mkFileMetadata {
  fm_path : string;
  fm_size : Z;
  fm_mtime : float;
  fm_checksum : string;
  fm_sync_state : string
}.

(** [FileMetadata.__init__]: the state tag starts as ['unknown']. *)
Definition FileMetadata_init (p : string) (sz : Z) (mt : float) (ck : string)
  : FileMetadata :=
  mkFileMetadata p sz mt ck "unknown".

(** The dictionaries the planner returns: [{'action', 'path', 'reason'}]. *)
Record SyncAction := mkAction {
  action : string;
  a_path : string;
  reason : string
}.

(** [self.stats] *)
Record Stats := mkStats {
  files_synced : Z;
  conflicts_resolved : Z;
  errors : Z;
  last_sync : option string
}.

(** [class FileSyncManager]: the fields the methods below read or write.
    [metadata_file] is derived from [local_dir]; the client and the observer
    live in the world the methods run in. *)
Record FileSyncManager := mkManager {
  local_dir : string;
  remote_dir : string;
  file_metadata : gmap string FileMetadata;
  sync_interval : Z;
  conflict_resolution : string;
  is_syncing : bool;
  pending_changes : gset string;
  stats : Stats
}.

(** [FileSyncManager.__init__].  [Path(local_dir).resolve()] is taken as
    already done: [ldir] is the absolute directory. *)
Definition FileSyncManager_init (ldir rdir : string) : FileSyncManager :=
  {| local_dir := ldir;
     remote_dir := rdir;
     file_metadata := ∅;
     sync_interval := 30;
     conflict_resolution := "ask";
     is_syncing := false;
     pending_changes := ∅;
     stats := mkStats 0 0 0 None |}.

(** ** Sync planner *)

(** [handle_delete_conflict] *)
Definition handle_delete_conflict (self : FileSyncManager)
    (relative_path conflict_type : string) : SyncAction :=
  if String.eqb (conflict_resolution self) "ask"
  then mkAction "skip" relative_path "delete_conflict"
  else if String.eqb conflict_type "remote_deleted"
  then mkAction "delete_local" relative_path "sync_deletion"
  else mkAction "delete_remote" relative_path "sync_deletion".

(** [handle_content_conflict] *)
Definition handle_content_conflict (self : FileSyncManager)
    (relative_path : string) (local_meta remote_meta : FileMetadata)
  : SyncAction :=
  if String.eqb (conflict_resolution self) "local_wins"
  then mkAction "upload" relative_path "conflict_local_wins"
  else if String.eqb (conflict_resolution self) "remote_wins"
  then mkAction "download" relative_path "conflict_remote_wins"
  else if String.eqb (conflict_resolution self) "keep_both"
  then mkAction "keep_both" relative_path "conflict_keep_both"
  else mkAction "skip" relative_path "conflict_requires_resolution".

(** The two comparisons of [determine_sync_action]. *)
Definition local_changed (local_meta stored_meta : FileMetadata) : bool :=
  negb (PrimFloat.eqb (fm_mtime local_meta) (fm_mtime stored_meta))
  || negb (String.eqb (fm_checksum local_meta) (fm_checksum stored_meta)).

Definition remote_changed (remote_meta stored_meta : FileMetadata) : bool :=
  negb (PrimFloat.eqb (fm_mtime remote_meta) (fm_mtime stored_meta)).

(** [determine_sync_action].  A [FileMetadata] object is always truthy, so
    [if local_meta] tests for [None]. *)
Definition determine_sync_action (self : FileSyncManager)
    (relative_path : string)
    (local_meta remote_meta stored_meta : option FileMetadata)
  : option SyncAction :=
  match local_meta, remote_meta with
  | Some _, None =>
      match stored_meta with
      | None => Some (mkAction "upload" relative_path "new_local_file")
      | Some _ =>
          Some (handle_delete_conflict self relative_path "remote_deleted")
      end
  | None, Some _ =>
      match stored_meta with
      | None => Some (mkAction "download" relative_path "new_remote_file")
      | Some _ =>
          Some (handle_delete_conflict self relative_path "local_deleted")
      end
  | Some l, Some r =>
      match stored_meta with
      | None => Some (handle_content_conflict self relative_path l r)
      | Some s =>
          let lc := local_changed l s in
          let rc := remote_changed r s in
          if lc && negb rc
          then Some (mkAction "upload" relative_path "local_modified")
          else if rc && negb lc
          then Some (mkAction "download" relative_path "remote_modified")
          else if lc && rc
          then Some (handle_content_conflict self relative_path l r)
          else None
      end
  | None, None => None
  end.

(** [plan_sync_actions].  Python walks the set [all_files] in an order it
    does not specify; [elements] fixes one. *)
Definition plan_sync_actions (self : FileSyncManager)
    (local_files remote_files : gmap string FileMetadata) : list SyncAction :=
  let all_files : gset string := dom local_files ∪ dom remote_files in
  omap (fun relative_path =>
          determine_sync_action self relative_path
            (local_files !! relative_path)
            (remote_files !! relative_path)
            (file_metadata self !! relative_path))
       (elements all_files).

(** ** Exceptions *)

(** The exception classes the program raises or catches, all of them
    subclasses of [Exception].  [MCPError code message] is
    [Exception(f"MCP Error {code}: {message}")]. *)
Inductive Exc :=
| ConnectionError (msg : string)
| TimeoutError (msg : string)
| FileNotFoundError (msg : string)
| ValueError (msg : string)
| KeyError (key : string)
| OSError (msg : string)
| ConnectionClosed
| MCPError (code : Z) (message : string)
| Exception (msg : string).

Inductive Outcome (A : Type) :=
| Return (a : A)
| Raise (e : Exc).
Arguments Return {A} a.
Arguments Raise {A} e.

(** ** Paths ([pathlib]) over normalised path strings *)

(** [Path(p).name]: what follows the last separator. *)
Fixpoint path_name (p : string) : string :=
  match p with
  | EmptyString => EmptyString
  | String c p' =>
      if contains_char "/" p' then path_name p'
      else if Ascii.eqb c "/" then p' else p
  end.

(** The part of [p] before its name, the last separator included. *)
Fixpoint path_dir (p : string) : string :=
  match p with
  | EmptyString => EmptyString
  | String c p' =>
      if contains_char "/" p' then String c (path_dir p')
      else if Ascii.eqb c "/" then "/" else EmptyString
  end.

(** [s[s.rfind('.'):]] when [s] holds a dot. *)
Fixpoint last_dot_tail (s : string) : option string :=
  match s with
  | EmptyString => None
  | String c s' =>
      match last_dot_tail s' with
      | Some t => Some t
      | None => if Ascii.eqb c "." then Some s else None
      end
  end.

(** [PurePath.suffix] of a name: [i = name.rfind('.')] and
    [name[i:]] when [0 < i < len(name) - 1], otherwise empty. *)
Definition name_suffix (name : string) : string :=
  match name with
  | EmptyString => EmptyString
  | String _ rest =>
      match last_dot_tail rest with
      | Some t => if Nat.eqb (String.length t) 1 then EmptyString else t
      | None => EmptyString
      end
  end.

(** [s[:n]] *)
Fixpoint take_string (n : nat) (s : string) : string :=
  match n, s with
  | S k, String c s' => String c (take_string k s')
  | _, _ => EmptyString
  end.

(** [name[:-len(old_suffix)]] *)
Definition name_stem (name : string) : string :=
  take_string (String.length name - String.length (name_suffix name)) name.

(** [PurePath.with_suffix] *)
Definition with_suffix (p suffix : string) : Outcome string :=
  if contains_char "/" suffix
  then Raise (ValueError "Invalid suffix")
  else if (negb (String.eqb suffix "") && negb (startswith "." suffix))
          || String.eqb suffix "."
  then Raise (ValueError "Invalid suffix")
  else
    let name := path_name p in
    if String.eqb name "" then Raise (ValueError "has an empty name")
    else
      let old_suffix := name_suffix name in
      let name' :=
        if String.eqb old_suffix "" then name +:+ suffix
        else name_stem name +:+ suffix in
      Return (path_dir p +:+ name').

(** [dir / rel] for a relative [rel]. *)
Definition joinpath (dir rel : string) : string := dir +:+ "/" +:+ rel.

(** [Path(p).relative_to(base)]; the empty result stands for [Path('.')]. *)
Definition relative_to (p base : string) : Outcome string :=
  if String.eqb p base then Return EmptyString
  else match strip_prefix (base +:+ "/") p with
       | Some rel => Return rel
       | None => Raise (ValueError "is not in the subpath")
       end.

(** [str(path)] of a relative path. *)
Definition path_str (rel : string) : string :=
  if String.eqb rel "" then "." else rel.

(** ** Wall-clock time *)

(** [datetime.now()] *)
Record Datetime := mkDatetime {
  year : nat; month : nat; day : nat;
  hour : nat; minute : nat; second : nat; microsecond : nat
}.

Definition digit (n : nat) : ascii :=
  match n mod 10 with
  | 0 => "0" | 1 => "1" | 2 => "2" | 3 => "3" | 4 => "4"
  | 5 => "5" | 6 => "6" | 7 => "7" | 8 => "8" | _ => "9"
  end%char.

(** [n] in decimal on [width] digits, zero filled. *)
Fixpoint zero_pad (width n : nat) : string :=
  match width with
  | O => EmptyString
  | S k => zero_pad k (n / 10) +:+ String (digit n) EmptyString
  end.

(** [dt.strftime("%Y%m%d_%H%M%S")] *)
Definition strftime_compact (dt : Datetime) : string :=
  zero_pad 4 (year dt) +:+ zero_pad 2 (month dt) +:+ zero_pad 2 (day dt)
  +:+ "_" +:+ zero_pad 2 (hour dt) +:+ zero_pad 2 (minute dt)
  +:+ zero_pad 2 (second dt).

(** [dt.isoformat()] *)
Definition isoformat (dt : Datetime) : string :=
  zero_pad 4 (year dt) +:+ "-" +:+ zero_pad 2 (month dt) +:+ "-"
  +:+ zero_pad 2 (day dt) +:+ "T" +:+ zero_pad 2 (hour dt) +:+ ":"
  +:+ zero_pad 2 (minute dt) +:+ ":" +:+ zero_pad 2 (second dt)
  +:+ (if Nat.eqb (microsecond dt) 0 then ""
       else "." +:+ zero_pad 6 (microsecond dt)).

(** ** The remote workspace seen through [send_request] *)

(** The requests the tool sends: method and parameters. *)
Inductive Request :=
| Initialize
| ResourcesList (type_ : string)
| ResourcesRead (uri : string)
| ToolsCall_create_file (path content : string) (overwrite : bool)
| ToolsCall_delete_file (path : string)
| ResourcesSubscribe (uri : string).

(** An entry of [response['resources']]. *)
Record Resource := mkResource {
  res_type : string;
  res_uri : string;
  res_name : string;
  res_lastModified : string
}.

(** The result object of a response, read through the keys the tool uses:
    [response.get('resources', [])], [response['contents']] ([None] when the
    key is missing; each entry is its ['text']) and
    [response.get('isError', False)]. *)
Record Response := mkResponse {
  resp_resources : list Resource;
  resp_contents : option (list string);
  resp_isError : bool
}.

(** What [list_files] returns for one resource. *)
Record FileInfo := mkFileInfo {
  fi_path : string;
  fi_name : string;
  fi_uri : string;
  fi_lastModified : string
}.

(** ** The persisted snapshot, as [json.loads] returns it *)

(** A value of the ['files'] object; a missing key is [None]. *)
Record MetaDict := mkMetaDict {
  md_path : option string;
  md_size : option Z;
  md_mtime : option float;
  md_checksum : option string;
  md_sync_state : option string
}.

(** The ['stats'] object; [sd_last_sync] distinguishes a missing key from
    [null]. *)
Record StatsDict := mkStatsDict {
  sd_files_synced : option Z;
  sd_conflicts_resolved : option Z;
  sd_errors : option Z;
  sd_last_sync : option (option string)
}.

Record SnapshotData := mkSnapshotData {
  snap_files : option (gmap string MetaDict);
  snap_stats : option StatsDict;
  snap_last_updated : option string
}.

(** [FileMetadata.to_dict] *)
Definition to_dict (m : FileMetadata) : MetaDict :=
  {| md_path := Some (fm_path m);
     md_size := Some (fm_size m);
     md_mtime := Some (fm_mtime m);
     md_checksum := Some (fm_checksum m);
     md_sync_state := Some (fm_sync_state m) |}.

(** [FileMetadata.from_dict]: a missing key other than ['sync_state'] is a
    [KeyError]. *)
Definition from_dict (data : MetaDict) : Outcome FileMetadata :=
  match md_path data, md_size data, md_mtime data, md_checksum data with
  | Some p, Some sz, Some mt, Some ck =>
      Return (mkFileMetadata p sz mt ck
                (default "unknown" (md_sync_state data)))
  | None, _, _, _ => Raise (KeyError "path")
  | _, None, _, _ => Raise (KeyError "size")
  | _, _, None, _ => Raise (KeyError "mtime")
  | _, _, _, None => Raise (KeyError "checksum")
  end.

(** [stats.update(d)] on the four keys the tool uses. *)
Definition stats_update (st : Stats) (d : StatsDict) : Stats :=
  {| files_synced := default (files_synced st) (sd_files_synced d);
     conflicts_resolved :=
       default (conflicts_resolved st) (sd_conflicts_resolved d);
     errors := default (errors st) (sd_errors d);
     last_sync := default (last_sync st) (sd_last_sync d) |}.

(** The ['stats'] object [json.dumps] writes for [self.stats]. *)
Definition stats_to_dict (st : Stats) : StatsDict :=
  {| sd_files_synced := Some (files_synced st);
     sd_conflicts_resolved := Some (conflicts_resolved st);
     sd_errors := Some (errors st);
     sd_last_sync := Some (last_sync st) |}.

(** Field updates on the manager. *)
Definition set_stats (self : FileSyncManager) (st : Stats) : FileSyncManager :=
  {| local_dir := local_dir self; remote_dir := remote_dir self;
     file_metadata := file_metadata self;
     sync_interval := sync_interval self;
     conflict_resolution := conflict_resolution self;
     is_syncing := is_syncing self;
     pending_changes := pending_changes self;
     stats := st |}.

Definition set_file_metadata (self : FileSyncManager)
    (fm : gmap string FileMetadata) : FileSyncManager :=
  {| local_dir := local_dir self; remote_dir := remote_dir self;
     file_metadata := fm;
     sync_interval := sync_interval self;
     conflict_resolution := conflict_resolution self;
     is_syncing := is_syncing self;
     pending_changes := pending_changes self;
     stats := stats self |}.

Definition set_is_syncing (self : FileSyncManager) (b : bool)
  : FileSyncManager :=
  {| local_dir := local_dir self; remote_dir := remote_dir self;
     file_metadata := file_metadata self;
     sync_interval := sync_interval self;
     conflict_resolution := conflict_resolution self;
     is_syncing := b;
     pending_changes := pending_changes self;
     stats := stats self |}.

Definition set_pending_changes (self : FileSyncManager) (pc : gset string)
  : FileSyncManager :=
  {| local_dir := local_dir self; remote_dir := remote_dir self;
     file_metadata := file_metadata self;
     sync_interval := sync_interval self;
     conflict_resolution := conflict_resolution self;
     is_syncing := is_syncing self;
     pending_changes := pc;
     stats := stats self |}.

(** [sync_manager.conflict_resolution = policy] *)
Definition set_conflict_resolution (self : FileSyncManager) (policy : string)
  : FileSyncManager :=
  {| local_dir := local_dir self; remote_dir := remote_dir self;
     file_metadata := file_metadata self;
     sync_interval := sync_interval self;
     conflict_resolution := policy;
     is_syncing := is_syncing self;
     pending_changes := pending_changes self;
     stats := stats self |}.

(** [self.stats['files_synced'] += 1] and [self.stats['errors'] += 1] *)
Definition incr_files_synced (self : FileSyncManager) : FileSyncManager :=
  set_stats self
    {| files_synced := (files_synced (stats self) + 1)%Z;
       conflicts_resolved := conflicts_resolved (stats self);
       errors := errors (stats self);
       last_sync := last_sync (stats self) |}.

Definition incr_errors (self : FileSyncManager) : FileSyncManager :=
  set_stats self
    {| files_synced := files_synced (stats self);
       conflicts_resolved := conflicts_resolved (stats self);
       errors := (errors (stats self) + 1)%Z;
       last_sync := last_sync (stats self) |}.

(** [self.stats['last_sync'] = s] *)
Definition set_last_sync (self : FileSyncManager) (s : string)
  : FileSyncManager :=
  set_stats self
    {| files_synced := files_synced (stats self);
       conflicts_resolved := conflicts_resolved (stats self);
       errors := errors (stats self);
       last_sync := Some s |}.

(** ** What the tool takes from outside *)

(** The remote server and the library functions the tool calls.  [serve] is
    what [MCPFileSyncClient.send_request] amounts to for its caller: the
    result object of the response, or the exception the call raises
    ([ConnectionError], [TimeoutError], [Exception "MCP Error ..."]), and the
    server's next state.  [parse_timestamp s] is
    [datetime.fromisoformat(s.replace('Z', '+00:00')).timestamp()], [None]
    when it raises; [json_loads] is [None] when [json.loads] raises. *)
Class Externals := {
  Server : Type;
  serve : Server -> Request -> Outcome Response * Server;
  md5_hexdigest : string -> string;
  parse_timestamp : string -> option float;
  json_loads : string -> option SnapshotData;
  json_dumps : SnapshotData -> string
}.

(** A regular file of the local file system. *)
Record LocalFile := mkFile {
  f_text : string;
  f_mtime : float
}.

Section Engine.

Context {E : Externals}.

(** Everything outside the manager object: the local files by absolute
    path, the clock, the error (if any) the directory walk of [rglob] raises,
    the server and the requests written to the channel so far. *)
Record World := mkWorld {
  fs : gmap string LocalFile;
  now : Datetime;
  now_ts : float;
  walk_error : option Exc;
  server : Server;
  sent : list Request
}.

Definition set_fs (w : World) (m : gmap string LocalFile) : World :=
  {| fs := m; now := now w; now_ts := now_ts w;
     walk_error := walk_error w; server := server w; sent := sent w |}.

(** Computations over the world that may raise. *)
Definition M (A : Type) : Type := World -> Outcome A * World.

#[export] Instance M_ret : MRet M := fun A (a : A) w => (Return a, w).

#[export] Instance M_bind : MBind M :=
  fun A B (f : A -> M B) (m : M A) w =>
    match m w with
    | (Return a, w') => f a w'
    | (Raise e, w') => (Raise e, w')
    end.

Definition raise {A : Type} (e : Exc) : M A := fun w => (Raise e, w).

(** [try: m except Exception as e: h e] *)
Definition try_except {A : Type} (m : M A) (h : Exc -> M A) : M A :=
  fun w =>
    match m w with
    | (Return a, w') => (Return a, w')
    | (Raise e, w') => h e w'
    end.

(** *** Local files *)

(** [path.exists()] *)
Definition path_exists (p : string) : M bool :=
  fun w => (Return (bool_decide (is_Some (fs w !! p))), w).

(** [open(p, 'r')] followed by [read()] *)
Definition read_text (p : string) : M string :=
  fun w =>
    match fs w !! p with
    | Some f => (Return (f_text f), w)
    | None => (Raise (FileNotFoundError p), w)
    end.

(** [open(p, 'w')] followed by [write(text)]: the file is created or
    replaced and stamped with the current time. *)
Definition write_text (p text : string) : M unit :=
  fun w => (Return tt, set_fs w (<[p := mkFile text (now_ts w)]> (fs w))).

(** [path.unlink()] *)
Definition unlink (p : string) : M unit :=
  fun w =>
    match fs w !! p with
    | Some _ => (Return tt, set_fs w (delete p (fs w)))
    | None => (Raise (FileNotFoundError p), w)
    end.

(** *** [MCPFileSyncClient], as its callers see it *)

Definition send_request (req : Request) : M Response :=
  fun w =>
    let '(r, s') := serve (server w) req in
    (r, {| fs := fs w; now := now w; now_ts := now_ts w;
           walk_error := walk_error w; server := s';
           sent := sent w ++ [req] |}).

(** [list_files] *)
Definition list_files (path_prefix : string) : M (list FileInfo) :=
  response ← send_request (ResourcesList "file");
  mret (omap (fun resource =>
                if String.eqb (res_type resource) "file"
                   && startswith ("file://" +:+ path_prefix) (res_uri resource)
                then Some {| fi_path := replace "file://" "" (res_uri resource);
                             fi_name := res_name resource;
                             fi_uri := res_uri resource;
                             fi_lastModified := res_lastModified resource |}
                else None)
             (resp_resources response)).

(** [read_file] *)
Definition read_file (remote_path : string) : M string :=
  response ← send_request (ResourcesRead ("file://" +:+ remote_path));
  match resp_contents response with
  | None => raise (KeyError "contents")
  | Some [] =>
      raise (FileNotFoundError ("Remote file not found: " +:+ remote_path))
  | Some (text :: _) => mret text
  end.

(** [write_file] *)
Definition write_file (remote_path content : string) : M bool :=
  response ← send_request (ToolsCall_create_file remote_path content true);
  mret (negb (resp_isError response)).

(** [delete_file] *)
Definition delete_file (remote_path : string) : M bool :=
  response ← send_request (ToolsCall_delete_file remote_path);
  mret (negb (resp_isError response)).

(** *** Scanning both sides *)

(** One step of the loop of [get_local_files] over [rglob('*')]: the entry is
    under [local_dir], it is a file (a path that [rglob] yields has a name),
    and its name does not start with a dot. *)
Definition scan_entry (self : FileSyncManager) (entry : string * LocalFile)
  : option (string * FileMetadata) :=
  let file_path := fst entry in
  if startswith (local_dir self +:+ "/") file_path
     && negb (String.eqb (path_name file_path) "")
     && negb (startswith "." (path_name file_path))
  then
    match relative_to file_path (local_dir self) with
    | Return relative_path =>
        Some (path_str relative_path,
              FileMetadata_init (path_str relative_path)
                (Z.of_nat (String.length (f_text (snd entry))))
                (f_mtime (snd entry))
                (md5_hexdigest (f_text (snd entry))))
    | Raise _ => None
    end
  else None.

(** [get_local_files] *)
Definition get_local_files (self : FileSyncManager)
  : M (gmap string FileMetadata) :=
  fun w =>
    match walk_error w with
    | Some e => (Raise e, w)
    | None =>
        (Return (list_to_map (omap (scan_entry self) (map_to_list (fs w)))), w)
    end.

(** The loop of [get_remote_files]; a timestamp that does not parse raises
    and leaves the loop with what was collected. *)
Fixpoint remote_files_loop (self : FileSyncManager) (files : list FileInfo)
    (remote_files : gmap string FileMetadata) : gmap string FileMetadata :=
  match files with
  | [] => remote_files
  | file_info :: rest =>
      match strip_prefix (remote_dir self) (fi_path file_info) with
      | Some tail =>
          let relative_path := lstrip_slash tail in
          match parse_timestamp (fi_lastModified file_info) with
          | Some mtime =>
              remote_files_loop self rest
                (<[relative_path :=
                     FileMetadata_init relative_path 0 mtime ""]> remote_files)
          | None => remote_files
          end
      | None => remote_files_loop self rest remote_files
      end
  end.

(** [get_remote_files] *)
Definition get_remote_files (self : FileSyncManager)
  : M (gmap string FileMetadata) :=
  try_except
    (files ← list_files (remote_dir self);
     mret (remote_files_loop self files ∅))
    (fun _ => mret ∅).

(** *** Sync executor *)

(** [upload_file] *)
Definition upload_file (self : FileSyncManager) (relative_path : string)
  : M unit :=
  let local_path := joinpath (local_dir self) relative_path in
  let remote_path := remote_dir self +:+ "/" +:+ relative_path in
  content ← read_text local_path;
  success ← write_file remote_path content;
  if success : bool then mret tt
  else raise (Exception ("Failed to upload " +:+ relative_path)).

(** [download_file]; directories are not part of the model, so
    [mkdir(parents=True, exist_ok=True)] has nothing to do. *)
Definition download_file (self : FileSyncManager) (relative_path : string)
  : M unit :=
  let local_path := joinpath (local_dir self) relative_path in
  let remote_path := remote_dir self +:+ "/" +:+ relative_path in
  content ← read_file remote_path;
  write_text local_path content.

(** [delete_local_file] *)
Definition delete_local_file (self : FileSyncManager) (relative_path : string)
  : M unit :=
  let local_path := joinpath (local_dir self) relative_path in
  present ← path_exists local_path;
  if present : bool then unlink local_path else mret tt.

(** [delete_remote_file] *)
Definition delete_remote_file (self : FileSyncManager)
    (relative_path : string) : M unit :=
  let remote_path := remote_dir self +:+ "/" +:+ relative_path in
  success ← delete_file remote_path;
  if success : bool then mret tt
  else raise (Exception ("Failed to delete remote file " +:+ relative_path)).

(** The name [create_conflict_copy] gives the copy, from the clock. *)
Definition conflict_suffix (dt : Datetime) (local_path : string) : string :=
  ".conflict_local_" +:+ strftime_compact dt
  +:+ name_suffix (path_name local_path).

(** The path of the conflict copy spelled out: the directory and the stem
    of the file, the conflict tag with the time of the clock, and the suffix
    of the file. *)
Definition conflict_path_of (dt : Datetime) (local_path : string) : string :=
  path_dir local_path +:+ name_stem (path_name local_path)
  +:+ ".conflict_local_" +:+ strftime_compact dt
  +:+ name_suffix (path_name local_path).

(** [create_conflict_copy].  Both files are opened before anything is read:
    opening the copy for writing creates it empty. *)
Definition create_conflict_copy (self : FileSyncManager)
    (relative_path : string) : M unit :=
  fun w =>
    let local_path := joinpath (local_dir self) relative_path in
    match with_suffix local_path (conflict_suffix (now w) local_path) with
    | Raise e => (Raise e, w)
    | Return conflict_path =>
        (present ← path_exists local_path;
         _ ← (if present : bool
              then (_ ← read_text local_path;
                    _ ← write_text conflict_path "";
                    text ← read_text local_path;
                    write_text conflict_path text)
              else mret tt);
         download_file self relative_path) w
    end.

(** [execute_single_action] *)
Definition execute_single_action (self : FileSyncManager) (a : SyncAction)
  : M unit :=
  let path := a_path a in
  let action_type := action a in
  if String.eqb action_type "upload" then upload_file self path
  else if String.eqb action_type "download" then download_file self path
  else if String.eqb action_type "delete_local"
  then delete_local_file self path
  else if String.eqb action_type "delete_remote"
  then delete_remote_file self path
  else if String.eqb action_type "keep_both"
  then create_conflict_copy self path
  else mret tt.

(** [execute_sync_actions] *)
Fixpoint execute_sync_actions (actions : list SyncAction)
    (self : FileSyncManager) (w : World) : FileSyncManager * World :=
  match actions with
  | [] => (self, w)
  | a :: rest =>
      match execute_single_action self a w with
      | (Return _, w') => execute_sync_actions rest (incr_files_synced self) w'
      | (Raise _, w') => execute_sync_actions rest (incr_errors self) w'
      end
  end.

(** What became of each action of a run of [execute_sync_actions], in
    order: [true] when [execute_single_action] returned. *)
Fixpoint execution_trace (actions : list SyncAction)
    (self : FileSyncManager) (w : World) : list (SyncAction * bool) :=
  match actions with
  | [] => []
  | a :: rest =>
      match execute_single_action self a w with
      | (Return _, w') =>
          (a, true) :: execution_trace rest (incr_files_synced self) w'
      | (Raise _, w') =>
          (a, false) :: execution_trace rest (incr_errors self) w'
      end
  end.

(** How many actions of a trace returned, and how many raised. *)
Definition succeeded (tr : list (SyncAction * bool)) : nat :=
  length (List.filter (fun x => snd x) tr).

Definition failed (tr : list (SyncAction * bool)) : nat :=
  length (List.filter (fun x => negb (snd x)) tr).

(** *** Metadata store *)

Definition metadata_file (self : FileSyncManager) : string :=
  joinpath (local_dir self) ".lokus-sync-metadata.json".

(** The dictionary comprehension of [load_metadata]: every entry goes
    through [from_dict], and the first [KeyError] ends it. *)
Definition files_from_dicts (files : gmap string MetaDict)
  : Outcome (gmap string FileMetadata) :=
  map_fold (fun p meta acc =>
              match acc, from_dict meta with
              | Return m, Return fm => Return (<[p := fm]> m)
              | Return _, Raise e => Raise e
              | Raise e, _ => Raise e
              end)
           (Return ∅) files.

(** [load_metadata] *)
Definition load_metadata (self : FileSyncManager) (w : World)
  : FileSyncManager * World :=
  match fs w !! metadata_file self with
  | None => (self, w)
  | Some f =>
      match json_loads (f_text f) with
      | None => (set_file_metadata self ∅, w)
      | Some data =>
          match files_from_dicts (default ∅ (snap_files data)) with
          | Raise _ => (set_file_metadata self ∅, w)
          | Return fm =>
              (set_stats (set_file_metadata self fm)
                 (stats_update (stats self)
                    (default (mkStatsDict None None None None)
                       (snap_stats data))), w)
          end
      end
  end.

(** [save_metadata] *)
Definition save_metadata (self : FileSyncManager) : M unit :=
  try_except
    (fun w =>
       let data :=
         {| snap_files := Some (to_dict <$> file_metadata self);
            snap_stats := Some (stats_to_dict (stats self));
            snap_last_updated := Some (isoformat (now w)) |} in
       write_text (metadata_file self) (json_dumps data) w)
    (fun _ => mret tt).

(** [FileSyncManager.initialize]: the directory is created, the metadata
    loaded and the watcher started. *)
Definition initialize (self : FileSyncManager) (w : World)
  : FileSyncManager * World :=
  load_metadata self w.


(** *** Sync manager *)

(** [self.file_metadata.update(local_files)]: the entries of [local_files]
    replace or extend the stored ones. *)
Definition metadata_update (self : FileSyncManager)
    (local_files : gmap string FileMetadata) : FileSyncManager :=
  set_file_metadata self (local_files ∪ file_metadata self).

(** The statements of [sync_files] after planning, inside [try]. *)
Definition execute_and_persist (local_files : gmap string FileMetadata)
    (actions : list SyncAction) (self : FileSyncManager) (w : World)
  : Outcome unit * FileSyncManager * World :=
  let '(self1, w1) := execute_sync_actions actions self w in
  let self2 := metadata_update self1 local_files in
  match save_metadata self2 w1 with
  | (Return _, w2) =>
      (Return tt, set_last_sync self2 (isoformat (now w2)), w2)
  | (Raise e, w2) => (Raise e, self2, w2)
  end.

(** The body of [try] in [sync_files]. *)
Definition sync_try (self : FileSyncManager) (w : World)
  : Outcome unit * FileSyncManager * World :=
  match get_local_files self w with
  | (Raise e, w1) => (Raise e, self, w1)
  | (Return local_files, w1) =>
      match get_remote_files self w1 with
      | (Raise e, w2) => (Raise e, self, w2)
      | (Return remote_files, w2) =>
          let actions := plan_sync_actions self local_files remote_files in
          execute_and_persist local_files actions self w2
      end
  end.

(** [sync_files], run without any other task in between. *)
Definition sync_files (self : FileSyncManager) (w : World)
  : FileSyncManager * World :=
  if is_syncing self then (self, w)
  else
    let self0 := set_is_syncing self true in
    match sync_try self0 w with
    | (Return _, self1, w1) => (set_is_syncing self1 false, w1)
    | (Raise _, self1, w1) => (set_is_syncing (incr_errors self1) false, w1)
    end.

(** [sync_single_file] *)
Definition sync_single_file (self : FileSyncManager) (relative_path : string)
  : M unit :=
  try_except
    (let local_path := joinpath (local_dir self) relative_path in
     present ← path_exists local_path;
     if present : bool then upload_file self relative_path
     else (_ ← delete_file (remote_dir self +:+ "/" +:+ relative_path);
           mret tt))
    (fun _ => mret tt).

(** [handle_local_change] up to [await asyncio.sleep(2)]: [None] when the
    handler has returned, otherwise the key it put in [pending_changes]. *)
Definition handle_local_change_begin (self : FileSyncManager)
    (file_path change_type : string) : FileSyncManager * option string :=
  match relative_to file_path (local_dir self) with
  | Raise _ => (self, None)
  | Return relative_path =>
      if startswith "." (path_name relative_path) then (self, None)
      else
        (set_pending_changes self
           ({[path_str relative_path]} ∪ pending_changes self),
         Some (path_str relative_path))
  end.

(** [handle_local_change] after the sleep. *)
Definition handle_local_change_resume (self : FileSyncManager)
    (key : string) (w : World) : FileSyncManager * World :=
  if bool_decide (key ∈ pending_changes self)
  then
    let '(_, w') := sync_single_file self key w in
    (set_pending_changes self (pending_changes self ∖ {[key]}), w')
  else (self, w).

(** [handle_local_change], run without any other task during the sleep. *)
Definition handle_local_change (self : FileSyncManager)
    (file_path change_type : string) (w : World) : FileSyncManager * World :=
  match handle_local_change_begin self file_path change_type with
  | (self1, None) => (self1, w)
  | (self1, Some key) => handle_local_change_resume self1 key w
  end.

(** *** Interleaving of tasks

    [sync_files] is a coroutine: other tasks run while it waits.  A pass in
    progress is suspended at one of three points. *)
Inductive Pass :=
| Scanning
| Planning (local_files remote_files : gmap string FileMetadata)
| Executing (local_files : gmap string FileMetadata)
            (actions : list SyncAction).

(** The [except] and [finally] clauses of [sync_files]. *)
Definition sync_finish (r : Outcome unit) (self : FileSyncManager)
  : FileSyncManager :=
  match r with
  | Return _ => set_is_syncing self false
  | Raise _ => set_is_syncing (incr_errors self) false
  end.

(** One move of a pass in progress; [None] when it has finished. *)
Definition pass_step (p : Pass) (self : FileSyncManager) (w : World)
  : option Pass * FileSyncManager * World :=
  match p with
  | Scanning =>
      match get_local_files self w with
      | (Raise e, w1) => (None, sync_finish (Raise e) self, w1)
      | (Return local_files, w1) =>
          match get_remote_files self w1 with
          | (Raise e, w2) => (None, sync_finish (Raise e) self, w2)
          | (Return remote_files, w2) =>
              (Some (Planning local_files remote_files), self, w2)
          end
      end
  | Planning local_files remote_files =>
      (Some (Executing local_files
               (plan_sync_actions self local_files remote_files)), self, w)
  | Executing local_files actions =>
      let '(r, self1, w1) := execute_and_persist local_files actions self w in
      (None, sync_finish r self1, w1)
  end.

(** The manager, the world and the passes in progress. *)
Record System := mkSystem {
  mgr : FileSyncManager;
  world : World;
  running : list Pass
}.

(** What the event loop may run next. *)
Inductive Event :=
| RequestSync
| Advance (i : nat)
| LocalChange (file_path change_type : string).

(** A call of [sync_files] runs up to its first [await]: it returns at the
    guard, or sets the flag and becomes a pass in progress. *)
Definition system_step (s : System) (ev : Event) : System :=
  match ev with
  | RequestSync =>
      if is_syncing (mgr s) then s
      else {| mgr := set_is_syncing (mgr s) true;
              world := world s;
              running := running s ++ [Scanning] |}
  | Advance i =>
      match running s !! i with
      | None => s
      | Some p =>
          let '(p', self', w') := pass_step p (mgr s) (world s) in
          {| mgr := self'; world := w';
             running := match p' with
                        | Some q => <[i := q]> (running s)
                        | None => delete i (running s)
                        end |}
      end
  | LocalChange file_path change_type =>
      let '(self', w') :=
        handle_local_change (mgr s) file_path change_type (world s) in
      {| mgr := self'; world := w'; running := running s |}
  end.

Definition system_run (s : System) (evs : list Event) : System :=
  fold_left system_step evs s.


(** The object [save_metadata] serialises, at clock [dt]. *)
Definition saved_snapshot (self : FileSyncManager) (dt : Datetime)
  : SnapshotData :=
  {| snap_files := Some (to_dict <$> file_metadata self);
     snap_stats := Some (stats_to_dict (stats self));
     snap_last_updated := Some (isoformat dt) |}.

(** [from_dict] with the [KeyError] forgotten. *)
Definition from_dict_option (data : MetaDict) : option FileMetadata :=
  match from_dict data with
  | Return m => Some m
  | Raise _ => None
  end.

(** A computation that leaves the clock and the walk as they are. *)
Definition keeps_clock {A : Type} (m : M A) : Prop :=
  forall w, now (m w).2 = now w /\ now_ts (m w).2 = now_ts w
            /\ walk_error (m w).2 = walk_error w.


(** The guard tells whether a pass is in progress: no pass when the flag is
    down, one when it is up. *)
Definition guard_ok (s : System) : Prop :=
  length (running s) = if is_syncing (mgr s) then 1 else 0.

End Engine.

(** ** Protocol client: requests, responses and their correlation

    [MCPFileSyncClient.send_request] and [_handle_messages] at the level of
    single messages.  [send_request] is cut at its [await]: [begin] runs up to
    [asyncio.wait_for], [finish] is what follows it. *)
Module MCPClient.

(** The method name of a request, for the messages of exceptions. *)
Definition method_of (req : Request) : string :=
  match req with
  | Initialize => "initialize"
  | ResourcesList _ => "resources/list"
  | ResourcesRead _ => "resources/read"
  | ToolsCall_create_file _ _ _ => "tools/call"
  | ToolsCall_delete_file _ => "tools/call"
  | ResourcesSubscribe _ => "resources/subscribe"
  end.

(** The websocket: whether it is open, and the requests written to it with
    their ids. *)
Record Channel := mkChannel {
  ch_open : bool;
  ch_sent : list (Z * Request)
}.

(** [class MCPFileSyncClient].  A [Future] object is known by its identity:
    the number of futures created before it. *)
Record Client := mkClient {
  ws : option Channel;
  message_id : Z;
  pending_requests : gmap Z nat;
  is_initialized : bool;
  subscriptions : gset string;
  futures_made : nat
}.

(** [MCPFileSyncClient.__init__] *)
Definition Client_init : Client :=
  {| ws := None; message_id := 1; pending_requests := ∅;
     is_initialized := false; subscriptions := ∅; futures_made := 0 |}.

(** An inbound message after [json.loads]: the keys [_handle_messages]
    looks at. *)
Record Inbound := mkInbound {
  in_id : option Z;
  in_error : option (Z * string);
  in_result : option Response;
  in_method : option string
}.

(** [{}] as a result object. *)
Definition empty_response : Response := mkResponse [] None false.

(** [timeout=30.0] *)
Definition request_timeout : float := 30%float.

(** [send_request] up to the wait: the id and the future of the request. *)
Definition send_request_begin (c : Client) (req : Request)
  : Outcome (Z * nat) * Client :=
  match ws c with
  | None => (Raise (ConnectionError "Not connected to MCP server"), c)
  | Some ch =>
      let id := message_id c in
      let future := futures_made c in
      let registered (ch' : Channel) :=
        {| ws := Some ch';
           message_id := (message_id c + 1)%Z;
           pending_requests := <[id := future]> (pending_requests c);
           is_initialized := is_initialized c;
           subscriptions := subscriptions c;
           futures_made := S (futures_made c) |} in
      if ch_open ch
      then (Return (id, future),
            registered (mkChannel true (ch_sent ch ++ [(id, req)])))
      else (Raise ConnectionClosed, registered ch)
  end.

(** What [await asyncio.wait_for(future, timeout)] gives its caller. *)
Inductive Awaited :=
| GotResult (r : Response)
| GotException (e : Exc)
| TimedOut.

(** [asyncio.wait_for]: [settled] says how long after the wait began the
    future is settled, and with what; [None] when it never is.  The result
    comes with the time the wait took. *)
Definition wait_for (settled : option (float * Outcome Response))
    (timeout : float) : float * Awaited :=
  match settled with
  | Some (t, r) =>
      if PrimFloat.ltb t timeout
      then (t, match r with
               | Return x => GotResult x
               | Raise e => GotException e
               end)
      else (timeout, TimedOut)
  | None => (timeout, TimedOut)
  end.

(** [send_request] from the wait on. *)
Definition send_request_finish (c : Client) (id : Z) (req : Request)
    (a : Awaited) : Outcome Response * Client :=
  match a with
  | GotResult r => (Return r, c)
  | GotException e => (Raise e, c)
  | TimedOut =>
      (Raise (TimeoutError ("Request " +:+ method_of req +:+ " timed out")),
       {| ws := ws c; message_id := message_id c;
          pending_requests := delete id (pending_requests c);
          is_initialized := is_initialized c;
          subscriptions := subscriptions c;
          futures_made := futures_made c |})
  end.

(** One turn of the loop of [_handle_messages]: the client, and the future
    that is settled if one is.  A notification only writes to the log. *)
Definition handle_message (c : Client) (data : Inbound)
  : Client * option (nat * Outcome Response) :=
  match in_id data with
  | Some id =>
      match pending_requests c !! id with
      | Some future =>
          ({| ws := ws c; message_id := message_id c;
              pending_requests := delete id (pending_requests c);
              is_initialized := is_initialized c;
              subscriptions := subscriptions c;
              futures_made := futures_made c |},
           Some (future,
                 match in_error data with
                 | Some (code, message) => Raise (MCPError code message)
                 | None => Return (default empty_response (in_result data))
                 end))
      | None => (c, None)
      end
  | None => (c, None)
  end.

(** The loop over several messages: the client and the futures settled. *)
Fixpoint handle_messages (c : Client) (msgs : list Inbound)
  : Client * list (nat * Outcome Response) :=
  match msgs with
  | [] => (c, [])
  | data :: rest =>
      let '(c1, settled) := handle_message c data in
      let '(c2, more) := handle_messages c1 rest in
      (c2, match settled with Some s => s :: more | None => more end)
  end.

(** The body of a response: its ['error'] and its ['result'], if any. *)
Record ReplyBody := mkReplyBody {
  rb_error : option (Z * string);
  rb_result : option Response
}.

(** [send_request] from call to return when no other message comes in
    meanwhile: the response to the request arrives with its id and is
    handled by [_handle_messages], or never arrives ([None]). *)
Definition send_request_alone (c : Client) (req : Request)
    (reply : option ReplyBody) : Outcome Response * Client :=
  match send_request_begin c req with
  | (Raise e, c1) => (Raise e, c1)
  | (Return (id, _), c1) =>
      match reply with
      | None => send_request_finish c1 id req TimedOut
      | Some body =>
          let '(c2, settled) :=
            handle_message c1
              (mkInbound (Some id) (rb_error body) (rb_result body) None) in
          send_request_finish c2 id req
            match settled with
            | Some (_, Return r) => GotResult r
            | Some (_, Raise e) => GotException e
            | None => TimedOut
            end
      end
  end.

Definition set_ws (c : Client) (channel : option Channel) : Client :=
  {| ws := channel; message_id := message_id c;
     pending_requests := pending_requests c;
     is_initialized := is_initialized c;
     subscriptions := subscriptions c;
     futures_made := futures_made c |}.

Definition set_is_initialized (c : Client) (b : bool) : Client :=
  {| ws := ws c; message_id := message_id c;
     pending_requests := pending_requests c;
     is_initialized := b;
     subscriptions := subscriptions c;
     futures_made := futures_made c |}.

Definition set_subscriptions (c : Client) (subs : gset string) : Client :=
  {| ws := ws c; message_id := message_id c;
     pending_requests := pending_requests c;
     is_initialized := is_initialized c;
     subscriptions := subs;
     futures_made := futures_made c |}.

(** [MCPFileSyncClient.initialize] *)
Definition initialize (c : Client) (reply : option ReplyBody)
  : Outcome Response * Client :=
  match send_request_alone c Initialize reply with
  | (Return response, c1) => (Return response, set_is_initialized c1 true)
  | (Raise e, c1) => (Raise e, c1)
  end.

(** [MCPFileSyncClient.connect]: [dial] is what [websockets.connect]
    gives, a channel or an exception. *)
Definition connect (c : Client) (dial : Outcome Channel)
    (reply : option ReplyBody) : bool * Client :=
  match dial with
  | Raise _ => (false, c)
  | Return ch =>
      match initialize (set_ws c (Some ch)) reply with
      | (Return _, c1) => (true, c1)
      | (Raise _, c1) => (false, c1)
      end
  end.

(** [MCPFileSyncClient.disconnect]: the websocket is closed, and stays the
    value of [self.ws]. *)
Definition disconnect (c : Client) : Client :=
  match ws c with
  | Some ch => set_ws c (Some (mkChannel false (ch_sent ch)))
  | None => c
  end.

(** [MCPFileSyncClient.subscribe_to_changes] *)
Definition subscribe_to_changes (c : Client) (remote_path : string)
    (reply : option ReplyBody) : Outcome unit * Client :=
  let uri := "file://" +:+ remote_path in
  if bool_decide (uri ∈ subscriptions c) then (Return tt, c)
  else
    match send_request_alone c (ResourcesSubscribe uri) reply with
    | (Return _, c1) =>
        (Return tt, set_subscriptions c1 ({[uri]} ∪ subscriptions c1))
    | (Raise e, c1) => (Raise e, c1)
    end.

(** What can happen to the client, one step at a time: a request is sent,
    a message comes in, the wait of a request times out. *)
Inductive ClientEvent :=
| Send (req : Request)
| Receive (data : Inbound)
| Expire (id : Z) (req : Request).

Definition client_step (c : Client) (ev : ClientEvent) : Client :=
  match ev with
  | Send req => (send_request_begin c req).2
  | Receive data => (handle_message c data).1
  | Expire id req => (send_request_finish c id req TimedOut).2
  end.

Definition client_run (c : Client) (evs : list ClientEvent) : Client :=
  fold_left client_step evs c.

(** Every id with a waiter was handed out before: it is below the
    counter. *)
Definition ids_fresh (c : Client) : Prop :=
  forall id, is_Some (pending_requests c !! id) -> (id < message_id c)%Z.

End MCPClient.

(** ** A small concrete setting, for examples *)

(** A server that keeps the files it is given, by remote path. *)
Definition demo_serve (files : gmap string string) (req : Request)
  : Outcome Response * gmap string string :=
  match req with
  | ResourcesList _ =>
      (Return (mkResponse
                 ((fun e : string * string =>
                     mkResource "file" ("file://" +:+ fst e) (fst e)
                       "2024-01-02T03:04:05Z") <$> map_to_list files)
                 None false), files)
  | ResourcesRead uri =>
      match strip_prefix "file://" uri with
      | Some p =>
          (Return (mkResponse [] (Some (option_list (files !! p))) false),
           files)
      | None => (Raise (MCPError (-32602) "Invalid params"), files)
      end
  | ToolsCall_create_file p content _ =>
      (Return (mkResponse [] None false), <[p := content]> files)
  | ToolsCall_delete_file p =>
      (Return (mkResponse [] None (bool_decide (files !! p = None))),
       delete p files)
  | _ => (Raise (TimeoutError "Request timed out"), files)
  end.

Definition dq : string := String "034"%char EmptyString.

(** The text of a snapshot file with a statistics block. *)
Definition demo_snapshot_text : string :=
  "{" +:+ dq +:+ "files" +:+ dq +:+ ": {}, "
  +:+ dq +:+ "stats" +:+ dq +:+ ": {"
  +:+ dq +:+ "files_synced" +:+ dq +:+ ": 5, "
  +:+ dq +:+ "conflicts_resolved" +:+ dq +:+ ": 0, "
  +:+ dq +:+ "errors" +:+ dq +:+ ": 2, "
  +:+ dq +:+ "last_sync" +:+ dq +:+ ": null}}".

(** What [json.loads] returns for it. *)
Definition demo_snapshot : SnapshotData :=
  {| snap_files := Some ∅;
     snap_stats := Some (mkStatsDict (Some 5%Z) (Some 0%Z) (Some 2%Z)
                           (Some None));
     snap_last_updated := None |}.

(** The externals of the examples: the server above, the text itself as
    its digest, one timestamp for every date, and a parser that knows the
    one snapshot text. *)
Definition demo_externals : Externals :=
  {| Server := gmap string string;
     serve := demo_serve;
     md5_hexdigest := fun text => text;
     parse_timestamp := fun _ => Some 1704164645%float;
     json_loads := fun text =>
       if String.eqb text demo_snapshot_text then Some demo_snapshot
       else None;
     json_dumps := fun _ => demo_snapshot_text |}.

Definition demo_manager : FileSyncManager :=
  FileSyncManager_init "/home/u/notes" "/workspace/synced".

Definition demo_clock : Datetime := mkDatetime 2024 1 2 3 4 5 0.

(** A world with one note on each side. *)
Definition demo_world : @World demo_externals :=
  {| fs := {[ "/home/u/notes/a.md" := mkFile "local text" 1704164000%float ]};
     now := demo_clock;
     now_ts := 1704164645%float;
     walk_error := None;
     server := {[ "/workspace/synced/a.md" := "remote text" ]};
     sent := [] |}.

Definition demo_meta (mt : float) (ck : string) : FileMetadata :=
  FileMetadata_init "a.md" 10 mt ck.


(** A manager that has stored metadata for a file no longer on either
    side. *)
Definition demo_manager_tracking : FileSyncManager :=
  set_file_metadata demo_manager
    {[ "old.md" := demo_meta 1704000000%float "old text" ]}.

Definition demo_system : @System demo_externals :=
  {| mgr := demo_manager; world := demo_world; running := [] |}.

(** A pass starts and scans; a second request comes while it plans. *)
Definition demo_events : list Event :=
  [RequestSync; Advance 0; RequestSync;
   LocalChange "/home/u/notes/.a.md.swp" "created"].

(** A connected client that has sent three requests. *)
Definition demo_client : MCPClient.Client :=
  {| MCPClient.ws := Some (MCPClient.mkChannel true []);
     MCPClient.message_id := 4;
     MCPClient.pending_requests := ∅;
     MCPClient.is_initialized := true;
     MCPClient.subscriptions := ∅;
     MCPClient.futures_made := 3 |}.

(** A response for another request. *)
Definition demo_inbound : MCPClient.Inbound :=
  MCPClient.mkInbound (Some 2%Z) None (Some MCPClient.empty_response) None.

(** A server that never answers: every request times out. *)
Definition offline_externals : Externals :=
  {| Server := unit;
     serve := fun _ _ => (Raise (TimeoutError "Request timed out"), tt);
     md5_hexdigest := fun text => text;
     parse_timestamp := fun _ => None;
     json_loads := fun _ => None;
     json_dumps := fun _ => "" |}.

(** The note of the demo world, with the server out of reach. *)
Definition offline_world : @World offline_externals :=
  @mkWorld offline_externals
    {[ "/home/u/notes/a.md" := mkFile "local text" 1704164000%float ]}
    demo_clock 1704164645%float None tt [].

(** A manager that resolves conflicts by itself and has the note in its
    stored metadata. *)
Definition auto_manager : FileSyncManager :=
  set_conflict_resolution
    (set_file_metadata demo_manager
       {[ "a.md" := FileMetadata_init "a.md" 10 1704164000%float
                      "local text" ]})
    "local_wins".

(** What the scan of the demo world finds. *)
Definition demo_scan : gmap string FileMetadata :=
  {[ "a.md" := FileMetadata_init "a.md" 10 1704164000%float "local text" ]}.

(** The demo world when the directory cannot be walked. *)
Definition unreadable_world : @World demo_externals :=
  @mkWorld demo_externals (fs demo_world) demo_clock 1704164645%float
    (Some (OSError "Input/output error")) (server demo_world) [].

(** Externals whose [json] functions know one document: the snapshot of
    [demo_manager_tracking] at the demo clock. *)
Definition codec_externals : Externals :=
  {| Server := unit;
     serve := fun _ _ => (Raise (TimeoutError "Request timed out"), tt);
     md5_hexdigest := fun text => text;
     parse_timestamp := fun _ => None;
     json_loads := fun text =>
       if String.eqb text "snapshot"
       then Some (saved_snapshot demo_manager_tracking demo_clock)
       else None;
     json_dumps := fun _ => "snapshot" |}.

Definition codec_world : @World codec_externals :=
  @mkWorld codec_externals ∅ demo_clock 1704164645%float None tt [].

(** A client with two requests waiting. *)
Definition demo_client_waiting : MCPClient.Client :=
  {| MCPClient.ws := Some (MCPClient.mkChannel true []);
     MCPClient.message_id := 6;
     MCPClient.pending_requests := {[ 4%Z := 3; 5%Z := 4 ]};
     MCPClient.is_initialized := true;
     MCPClient.subscriptions := ∅;
     MCPClient.futures_made := 5 |}.

(** * Properties *)

(** ** Strings and paths *)

Section StringFacts.

Implicit Types (s t pre : string) (c : ascii).

Lemma append_cons c s t : String c s +:+ t = String c (s +:+ t).
Proof. reflexivity. Qed.

Lemma append_nil_l s : "" +:+ s = s.
Proof. reflexivity. Qed.

Lemma append_nil_r s : s +:+ "" = s.
Proof.
  induction s as [|c s IH]; [reflexivity|]. by rewrite append_cons, IH.
Qed.

Lemma append_assoc s t u : (s +:+ t) +:+ u = s +:+ (t +:+ u).
Proof.
  induction s as [|c s IH]; [reflexivity|]. by rewrite !append_cons, IH.
Qed.

Lemma length_append s t :
  String.length (s +:+ t) = String.length s + String.length t.
Proof.
  induction s as [|c s IH]; [reflexivity|].
  rewrite append_cons. simpl. by rewrite IH.
Qed.

Lemma strip_prefix_app pre s : strip_prefix pre (pre +:+ s) = Some s.
Proof.
  induction pre as [|c pre IH]; [by destruct s|].
  rewrite append_cons. cbn [strip_prefix]. by rewrite Ascii.eqb_refl.
Qed.

Lemma strip_prefix_Some pre s t :
  strip_prefix pre s = Some t -> s = pre +:+ t.
Proof.
  revert s. induction pre as [|c pre IH]; intros s; cbn [strip_prefix].
  - by intros [= ->].
  - destruct s as [|d s]; [discriminate|].
    destruct (Ascii.eqb_spec c d) as [->|]; [|discriminate].
    intros H. by rewrite append_cons, <- (IH _ H).
Qed.

Lemma contains_char_app c s t :
  contains_char c (s +:+ t) = contains_char c s || contains_char c t.
Proof.
  induction s as [|d s IH]; [reflexivity|].
  rewrite append_cons. cbn [contains_char].
  destruct (Ascii.eqb c d); [reflexivity | exact IH].
Qed.

Lemma take_string_app s t : take_string (String.length s) (s +:+ t) = s.
Proof.
  induction s as [|c s IH]; [by destruct t|].
  rewrite append_cons. simpl. by rewrite IH.
Qed.

(** A path is its directory part followed by its name. *)
Lemma path_dir_name p : p = path_dir p +:+ path_name p.
Proof.
  induction p as [|c p IH]; [reflexivity|]. cbn [path_dir path_name].
  destruct (contains_char "/" p).
  - by rewrite append_cons, <- IH.
  - destruct (Ascii.eqb_spec c "/") as [->|]; reflexivity.
Qed.

Lemma path_name_no_sep p : contains_char "/" (path_name p) = false.
Proof.
  induction p as [|c p IH]; [reflexivity|]. cbn [path_name].
  destruct (contains_char "/" p) eqn:Hp; [exact IH|].
  destruct (Ascii.eqb_spec c "/") as [->|Hc]; [exact Hp|].
  cbn [contains_char]. rewrite Hp.
  destruct (Ascii.eqb_spec "/"%char c); [congruence | reflexivity].
Qed.

Lemma path_name_plain s : contains_char "/" s = false -> path_name s = s.
Proof.
  destruct s as [|c s]; [reflexivity|]. cbn [contains_char path_name].
  destruct (Ascii.eqb_spec "/"%char c) as [<-|Hc]; [discriminate|].
  intros ->. destruct (Ascii.eqb_spec c "/"); [congruence | reflexivity].
Qed.

(** The name of [dir / rel] is the name of [rel]. *)
Lemma path_name_joinpath dir rel :
  path_name (joinpath dir rel) = path_name rel.
Proof.
  unfold joinpath. induction dir as [|c dir IH].
  - rewrite append_nil_l, append_cons, append_nil_l. cbn [path_name].
    rewrite Ascii.eqb_refl.
    destruct (contains_char "/" rel) eqn:Hrel; [reflexivity|].
    symmetry. by apply path_name_plain.
  - rewrite append_cons. cbn [path_name].
    rewrite contains_char_app, append_cons, append_nil_l.
    cbn [contains_char]. rewrite Ascii.eqb_refl, orb_true_r. exact IH.
Qed.

Lemma last_dot_tail_is_suffix s t :
  last_dot_tail s = Some t -> exists pre, s = pre +:+ t.
Proof.
  revert t. induction s as [|c s IH]; intros t; cbn [last_dot_tail];
    [discriminate|].
  destruct (last_dot_tail s) as [t'|].
  - intros [= <-]. destruct (IH t' eq_refl) as [pre ->].
    by exists (String c pre).
  - destruct (Ascii.eqb c "."); [|discriminate].
    intros [= <-]. by exists "".
Qed.

Lemma name_suffix_is_suffix name :
  exists pre, name = pre +:+ name_suffix name.
Proof.
  unfold name_suffix. destruct name as [|c rest].
  - by exists "".
  - destruct (last_dot_tail rest) as [t|] eqn:Ht.
    + destruct (String.length t =? 1)%nat.
      * exists (String c rest). by rewrite append_nil_r.
      * destruct (last_dot_tail_is_suffix _ _ Ht) as [pre ->].
        by exists (String c pre).
    + exists (String c rest). by rewrite append_nil_r.
Qed.

(** A name is its stem followed by its suffix. *)
Lemma name_stem_suffix name : name = name_stem name +:+ name_suffix name.
Proof.
  unfold name_stem. destruct (name_suffix_is_suffix name) as [pre Hpre].
  rewrite Hpre at 2. rewrite length_append.
  replace (String.length pre + String.length (name_suffix name)
           - String.length (name_suffix name)) with (String.length pre) by lia.
  rewrite Hpre at 2. by rewrite take_string_app.
Qed.

Lemma name_suffix_no_sep name :
  contains_char "/" name = false ->
  contains_char "/" (name_suffix name) = false.
Proof.
  intros H. rewrite (name_stem_suffix name), contains_char_app in H.
  by apply orb_false_elim in H as [_ ?].
Qed.

Lemma digit_not_sep n : Ascii.eqb "/" (digit n) = false.
Proof.
  unfold digit. generalize (n mod 10). intros k.
  do 9 (destruct k as [|k]; [reflexivity|]). reflexivity.
Qed.

Lemma zero_pad_no_sep width n : contains_char "/" (zero_pad width n) = false.
Proof.
  revert n. induction width as [|k IH]; intros n; cbn [zero_pad];
    [reflexivity|].
  rewrite contains_char_app, IH. cbn [contains_char orb].
  by rewrite digit_not_sep.
Qed.

Lemma strftime_compact_no_sep dt :
  contains_char "/" (strftime_compact dt) = false.
Proof.
  unfold strftime_compact.
  rewrite !contains_char_app, !zero_pad_no_sep. reflexivity.
Qed.

Lemma string_neq_length s t : String.length s <> String.length t -> s <> t.
Proof. by intros H ->. Qed.

End StringFacts.

(** ** Planner *)

Section PlannerFacts.

Implicit Types (self : FileSyncManager) (l r s : FileMetadata).
Implicit Types (p : string) (a : SyncAction).

Lemma local_changed_true l s :
  local_changed l s = true <->
  PrimFloat.eqb (fm_mtime l) (fm_mtime s) = false
  \/ fm_checksum l <> fm_checksum s.
Proof.
  unfold local_changed. rewrite orb_true_iff, !negb_true_iff.
  rewrite String.eqb_neq. reflexivity.
Qed.

Lemma remote_changed_true r s :
  remote_changed r s = true <->
  PrimFloat.eqb (fm_mtime r) (fm_mtime s) = false.
Proof. unfold remote_changed. apply negb_true_iff. Qed.

Lemma handle_delete_conflict_path self p ct :
  a_path (handle_delete_conflict self p ct) = p.
Proof.
  unfold handle_delete_conflict.
  destruct (String.eqb _ "ask"); [reflexivity|].
  destruct (String.eqb ct _); reflexivity.
Qed.

Lemma handle_content_conflict_path self p l r :
  a_path (handle_content_conflict self p l r) = p.
Proof.
  unfold handle_content_conflict.
  repeat (match goal with |- context [if ?b then _ else _] => destruct b end);
    reflexivity.
Qed.

(** Every action the planner decides for a path carries that path. *)
Lemma determine_sync_action_path self p ol or os a :
  determine_sync_action self p ol or os = Some a -> a_path a = p.
Proof.
  unfold determine_sync_action.
  destruct ol as [l|], or as [r|], os as [s|]; intros H;
    try discriminate;
    repeat (match type of H with
            | context [if ?b then _ else _] => destruct b
            end);
    try discriminate;
    injection H as <-;
    auto using handle_delete_conflict_path, handle_content_conflict_path.
Qed.

(** The planner looks at a path only when one of the two scans has it. *)
Lemma plan_sync_actions_elem self local_files remote_files a :
  a ∈ plan_sync_actions self local_files remote_files ->
  exists p,
    p ∈ dom local_files ∪ dom remote_files
    /\ determine_sync_action self p (local_files !! p) (remote_files !! p)
         (file_metadata self !! p) = Some a.
Proof.
  unfold plan_sync_actions. intros H.
  apply list_elem_of_omap in H as (p & Hin & Hp).
  exists p. split; [|exact Hp].
  by apply elem_of_elements in Hin.
Qed.

(** C1: for a path with local, remote and stored metadata, "local changed"
    is a different modification time or a different checksum, "remote
    changed" a different modification time; a local change alone gives an
    upload with reason [local_modified], a remote change alone a download
    with reason [remote_modified], both give the content-conflict
    resolution (and neither gives no action). *)
Theorem determine_sync_action_tracked self p l r s :
  (local_changed l s = true <->
     PrimFloat.eqb (fm_mtime l) (fm_mtime s) = false
     \/ fm_checksum l <> fm_checksum s)
  /\ (remote_changed r s = true <->
        PrimFloat.eqb (fm_mtime r) (fm_mtime s) = false)
  /\ determine_sync_action self p (Some l) (Some r) (Some s) =
     match local_changed l s, remote_changed r s with
     | true, false => Some (mkAction "upload" p "local_modified")
     | false, true => Some (mkAction "download" p "remote_modified")
     | true, true => Some (handle_content_conflict self p l r)
     | false, false => None
     end.
Proof.
  split; [apply local_changed_true|].
  split; [apply remote_changed_true|].
  unfold determine_sync_action.
  destruct (local_changed l s), (remote_changed r s); reflexivity.
Qed.

(** C2: under the policy [ask], the one [__init__] sets, a delete conflict
    and a content conflict both give a [skip] with a reason; a content
    conflict gives an upload under [local_wins], a download under
    [remote_wins] and [keep_both] under [keep_both]. *)
Theorem conflict_policy self p ct l r :
  (forall ldir rdir,
      conflict_resolution (FileSyncManager_init ldir rdir) = "ask")
  /\ (conflict_resolution self = "ask" ->
      handle_delete_conflict self p ct = mkAction "skip" p "delete_conflict"
      /\ handle_content_conflict self p l r
         = mkAction "skip" p "conflict_requires_resolution")
  /\ (conflict_resolution self = "local_wins" ->
      handle_content_conflict self p l r
      = mkAction "upload" p "conflict_local_wins")
  /\ (conflict_resolution self = "remote_wins" ->
      handle_content_conflict self p l r
      = mkAction "download" p "conflict_remote_wins")
  /\ (conflict_resolution self = "keep_both" ->
      handle_content_conflict self p l r
      = mkAction "keep_both" p "conflict_keep_both").
Proof.
  unfold handle_delete_conflict, handle_content_conflict.
  split; [reflexivity|].
  split; [intros ->; split; reflexivity|].
  split; [intros ->; reflexivity|].
  split; intros ->; reflexivity.
Qed.

(** C3: when the stored, local and remote metadata of a path agree (the
    modification times compare equal, the local checksum is the stored
    one) the planner returns no action; and a path that neither scan holds
    is the path of no planned action, whatever is stored. *)
Theorem planner_nothing_to_reconcile self :
  (forall p l r s,
      PrimFloat.eqb (fm_mtime l) (fm_mtime s) = true ->
      fm_checksum l = fm_checksum s ->
      PrimFloat.eqb (fm_mtime r) (fm_mtime s) = true ->
      determine_sync_action self p (Some l) (Some r) (Some s) = None)
  /\ (forall (local_files remote_files : gmap string FileMetadata) p,
         local_files !! p = None ->
         remote_files !! p = None ->
         Forall (fun a => a_path a <> p)
           (plan_sync_actions self local_files remote_files)).
Proof.
  split.
  - intros p l r s Hl Hc Hr. unfold determine_sync_action.
    assert (local_changed l s = false) as ->.
    { unfold local_changed. rewrite Hl, Hc, String.eqb_refl. reflexivity. }
    assert (remote_changed r s = false) as ->.
    { unfold remote_changed. rewrite Hr. reflexivity. }
    reflexivity.
  - intros local_files remote_files p Hl Hr.
    apply Forall_forall. intros a Ha Heq.
    apply plan_sync_actions_elem in Ha as (q & Hq & Hact).
    apply determine_sync_action_path in Hact. subst q. rewrite Heq in Hq.
    apply elem_of_union in Hq as [Hq|Hq]; apply elem_of_dom in Hq as [? Hq];
      congruence.
Qed.

(** The examples of the specification: an untracked local note is
    uploaded; a local change against an unchanged remote is an upload with
    reason [local_modified]; two untracked copies are a content conflict,
    resolved as a download under [remote_wins]. *)
Example plan_untracked_local_note :
  plan_sync_actions demo_manager
    {[ "notes/a.md" := FileMetadata_init "notes/a.md" 10 1704164000 "H1" ]} ∅
  = [mkAction "upload" "notes/a.md" "new_local_file"].
Proof. reflexivity. Qed.

Example plan_local_modified :
  determine_sync_action demo_manager "a.md"
    (Some (demo_meta 1704164000 "H1")) (Some (demo_meta 1704000000 ""))
    (Some (demo_meta 1704000000 "H0"))
  = Some (mkAction "upload" "a.md" "local_modified").
Proof. reflexivity. Qed.

Example plan_untracked_both_remote_wins :
  determine_sync_action (set_conflict_resolution demo_manager "remote_wins")
    "a.md" (Some (demo_meta 1704164000 "H1"))
    (Some (demo_meta 1704000000 "")) None
  = Some (mkAction "download" "a.md" "conflict_remote_wins").
Proof. reflexivity. Qed.

(** A modification time that is not a number differs from itself: a record
    compared with itself then counts as changed. *)
Example nan_mtime_counts_as_changed :
  local_changed (demo_meta nan "H0") (demo_meta nan "H0") = true.
Proof. reflexivity. Qed.

End PlannerFacts.

(** ** Executor *)

Section ExecutorFacts.

Context {E : Externals}.

Implicit Types (self : FileSyncManager) (w : World) (p rel : string).

(** A request changes nothing on the local side. *)
Lemma send_request_fs req w r w' :
  send_request req w = (r, w') -> fs w' = fs w /\ now_ts w' = now_ts w.
Proof.
  unfold send_request. destruct (serve (server w) req) as [r0 s'].
  by intros [= <- <-].
Qed.

Lemma read_file_fs remote_path w r w' :
  read_file remote_path w = (r, w') -> fs w' = fs w /\ now_ts w' = now_ts w.
Proof.
  unfold read_file, mbind, M_bind.
  destruct (send_request _ w) as [[response|e] w1] eqn:Hreq;
    apply send_request_fs in Hreq.
  - destruct (resp_contents response) as [[|text ?]|];
      unfold raise, mret, M_ret; by intros [= <- <-].
  - by intros [= <- <-].
Qed.

(** [download_file] writes at most the local path of the file. *)
Lemma download_file_fs self rel w r w' :
  download_file self rel w = (r, w') ->
  forall q, q <> joinpath (local_dir self) rel -> fs w' !! q = fs w !! q.
Proof.
  unfold download_file, mbind, M_bind. intros H q Hq.
  destruct (read_file _ w) as [[content|e] w1] eqn:Hread;
    apply read_file_fs in Hread as [Hfs _].
  - unfold write_text in H. injection H as <- <-. simpl.
    by rewrite lookup_insert_ne, Hfs.
  - injection H as <- <-. by rewrite Hfs.
Qed.

(** When [download_file] returns, the local path holds the text the server
    sent. *)
Lemma download_file_result self rel w w' :
  download_file self rel w = (Return tt, w') ->
  exists content w1,
    read_file (remote_dir self +:+ "/" +:+ rel) w = (Return content, w1)
    /\ fs w' !! joinpath (local_dir self) rel
       = Some (mkFile content (now_ts w)).
Proof.
  unfold download_file, mbind, M_bind. intros H.
  destruct (read_file _ w) as [[content|e] w1] eqn:Hread; [|discriminate].
  exists content, w1. split; [reflexivity|].
  apply read_file_fs in Hread as [_ Hts].
  unfold write_text in H. injection H as <-. simpl.
  by rewrite lookup_insert_eq, Hts.
Qed.

Lemma with_suffix_conflict dt p :
  path_name p <> "" ->
  with_suffix p (conflict_suffix dt p) = Return (conflict_path_of dt p).
Proof.
  intros Hname. unfold with_suffix.
  assert (contains_char "/" (conflict_suffix dt p) = false) as ->.
  { unfold conflict_suffix.
    rewrite !contains_char_app, strftime_compact_no_sep.
    rewrite (name_suffix_no_sep _ (path_name_no_sep p)). reflexivity. }
  assert (String.eqb (conflict_suffix dt p) "" = false) as -> by reflexivity.
  assert (startswith "." (conflict_suffix dt p) = true) as -> by reflexivity.
  assert (String.eqb (conflict_suffix dt p) "." = false) as -> by reflexivity.
  apply String.eqb_neq in Hname as ->. cbn [negb andb orb].
  unfold conflict_path_of.
  destruct (String.eqb_spec (name_suffix (path_name p)) "") as [Hs|_].
  - rewrite (name_stem_suffix (path_name p)) at 1.
    rewrite Hs at 1. rewrite append_nil_r. reflexivity.
  - reflexivity.
Qed.

(** The copy never has the name of the file it copies. *)
Lemma conflict_path_fresh dt p : conflict_path_of dt p <> p.
Proof.
  apply string_neq_length. unfold conflict_path_of.
  pose proof (f_equal String.length (path_dir_name p)) as Hp.
  pose proof (f_equal String.length (name_stem_suffix (path_name p))) as Hn.
  rewrite !length_append in Hp, Hn. rewrite !length_append.
  change (String.length ".conflict_local_") with 16. lia.
Qed.


(** The executor touches the two counters and nothing else of the manager. *)
Lemma execute_sync_actions_frame actions self w :
  let self' := (execute_sync_actions actions self w).1 in
  local_dir self' = local_dir self
  /\ remote_dir self' = remote_dir self
  /\ file_metadata self' = file_metadata self
  /\ conflict_resolution self' = conflict_resolution self
  /\ is_syncing self' = is_syncing self
  /\ pending_changes self' = pending_changes self
  /\ conflicts_resolved (stats self') = conflicts_resolved (stats self)
  /\ last_sync (stats self') = last_sync (stats self)
  /\ (files_synced (stats self) <= files_synced (stats self'))%Z
  /\ (errors (stats self) <= errors (stats self'))%Z.
Proof.
  revert self w. induction actions as [|a rest IH]; intros self w.
  - cbn. repeat split; lia.
  - cbn [execute_sync_actions].
    destruct (execute_single_action self a w) as [[u|e] w1].
    + specialize (IH (incr_files_synced self) w1). cbn in IH |- *.
      destruct IH as (? & ? & ? & ? & ? & ? & ? & ? & ? & ?).
      repeat split; try assumption; lia.
    + specialize (IH (incr_errors self) w1). cbn in IH |- *.
      destruct IH as (? & ? & ? & ? & ? & ? & ? & ? & ? & ?).
      repeat split; try assumption; lia.
Qed.

(** C7: in a run of [execute_sync_actions] every action of the list is
    attempted, in order; each one that returns adds one to [files_synced],
    each one that raises adds one to [errors]; and whatever happened to the
    actions of a list, those that follow it are executed from the state
    reached. *)
Theorem execute_sync_actions_isolates_failures actions rest self w :
  let tr := execution_trace actions self w in
  let self' := (execute_sync_actions actions self w).1 in
  let w' := (execute_sync_actions actions self w).2 in
  map fst tr = actions
  /\ files_synced (stats self')
     = (files_synced (stats self) + Z.of_nat (succeeded tr))%Z
  /\ errors (stats self')
     = (errors (stats self) + Z.of_nat (failed tr))%Z
  /\ succeeded tr + failed tr = length actions
  /\ execute_sync_actions (actions ++ rest) self w
     = execute_sync_actions rest self' w'.
Proof.
  revert self w. induction actions as [|a l IH]; intros self w.
  - cbn. repeat split; lia.
  - cbn [execute_sync_actions execution_trace app].
    destruct (execute_single_action self a w) as [[u|e] w1].
    + destruct (IH (incr_files_synced self) w1) as (Htr & Hok & Herr & Hn & Happ).
      cbn zeta in *. unfold succeeded, failed in *.
      cbn [map fst snd List.filter negb length].
      rewrite Htr, Hok, Herr, Happ. cbn [stats incr_files_synced set_stats
        files_synced errors].
      repeat split; lia.
    + destruct (IH (incr_errors self) w1) as (Htr & Hok & Herr & Hn & Happ).
      cbn zeta in *. unfold succeeded, failed in *.
      cbn [map fst snd List.filter negb length].
      rewrite Htr, Hok, Herr, Happ. cbn [stats incr_errors set_stats
        files_synced errors].
      repeat split; lia.
Qed.

End ExecutorFacts.

(** ** Manager *)

Section ManagerFacts.

Context {E : Externals}.

Implicit Types (self : FileSyncManager) (w : World) (p rel : string).

(** The scan reads the directory of the manager and nothing else of it. *)
Lemma get_local_files_set_is_syncing self b w :
  get_local_files (set_is_syncing self b) w = get_local_files self w.
Proof. reflexivity. Qed.

Lemma get_local_files_world self w r w' :
  get_local_files self w = (r, w') -> w' = w.
Proof.
  unfold get_local_files. destruct (walk_error w); by intros [= _ <-].
Qed.

Lemma get_local_files_walk self w :
  walk_error w = None ->
  exists local_files, get_local_files self w = (Return local_files, w).
Proof. unfold get_local_files. intros ->. eauto. Qed.

(** [get_remote_files] catches what it raises, and writes no local file. *)
Lemma get_remote_files_returns self w :
  exists remote_files w',
    get_remote_files self w = (Return remote_files, w') /\ fs w' = fs w.
Proof.
  unfold get_remote_files, try_except, list_files, mbind, M_bind.
  destruct (send_request _ w) as [[response|e] w1] eqn:Hreq;
    apply send_request_fs in Hreq as [Hfs _];
    unfold mret, M_ret; eauto.
Qed.

(** [save_metadata] returns, having written the snapshot file. *)
Lemma save_metadata_writes self w :
  save_metadata self w
  = (Return tt,
     set_fs w
       (<[metadata_file self :=
            mkFile (json_dumps
                      {| snap_files := Some (to_dict <$> file_metadata self);
                         snap_stats := Some (stats_to_dict (stats self));
                         snap_last_updated := Some (isoformat (now w)) |})
                   (now_ts w)]> (fs w))).
Proof. reflexivity. Qed.

(** The statements after planning keep the flag and the settings, merge the
    scan into the stored metadata and never lower a counter. *)
Lemma execute_and_persist_frame local_files actions self w :
  let '(r, self', w') := execute_and_persist local_files actions self w in
  r = Return tt
  /\ is_syncing self' = is_syncing self
  /\ file_metadata self' = local_files ∪ file_metadata self
  /\ conflicts_resolved (stats self') = conflicts_resolved (stats self)
  /\ (files_synced (stats self) <= files_synced (stats self'))%Z
  /\ (errors (stats self) <= errors (stats self'))%Z
  /\ exists data,
       snap_files data = Some (to_dict <$> (local_files ∪ file_metadata self))
       /\ f_text <$> fs w' !! metadata_file self = Some (json_dumps data).
Proof.
  unfold execute_and_persist.
  pose proof (execute_sync_actions_frame actions self w) as Hframe.
  destruct (execute_sync_actions actions self w) as [self1 w1].
  cbn [fst] in Hframe.
  destruct Hframe as (Hld & _ & Hfm & _ & Hsync & _ & Hcr & _ & Hfs & Herr).
  rewrite save_metadata_writes.
  cbn [metadata_update set_file_metadata set_last_sync set_stats stats
         is_syncing file_metadata conflicts_resolved files_synced errors].
  rewrite Hfm. repeat split; try assumption.
  eexists. split; [|unfold metadata_file; rewrite <- Hld; cbn [fs set_fs];
                    rewrite lookup_insert_eq; reflexivity].
  reflexivity.
Qed.

(** What a call of [sync_files] that passes the guard comes to, by the
    outcome of the scan. *)
Lemma sync_files_unfold self w :
  is_syncing self = false ->
  sync_files self w
  = match get_local_files self w with
    | (Raise _, w1) => (set_is_syncing (incr_errors self) false, w1)
    | (Return local_files, w1) =>
        match get_remote_files (set_is_syncing self true) w1 with
        | (Raise _, w2) => (set_is_syncing (incr_errors self) false, w2)
        | (Return remote_files, w2) =>
            let '(r, self1, w3) :=
              execute_and_persist local_files
                (plan_sync_actions (set_is_syncing self true)
                   local_files remote_files)
                (set_is_syncing self true) w2 in
            (sync_finish r self1, w3)
        end
    end.
Proof.
  intros Hs. unfold sync_files, sync_try. rewrite Hs.
  rewrite get_local_files_set_is_syncing.
  destruct (get_local_files self w) as [[local_files|e] w1]; [|reflexivity].
  destruct (get_remote_files _ w1) as [[remote_files|e] w2]; [|reflexivity].
  destruct (execute_and_persist _ _ _ w2) as [[[u|e] self1] w3]; reflexivity.
Qed.

(** C9: a call of [sync_files] removes no entry of the stored metadata;
    every entry it holds afterwards was stored before or comes from the
    local scan of this call; and a pass that completes stores exactly the
    local scan merged over the old entries, and writes that to the snapshot
    file. *)
Theorem sync_files_merges_local_scan self w :
  let self' := (sync_files self w).1 in
  let w' := (sync_files self w).2 in
  (forall p, is_Some (file_metadata self !! p) ->
             is_Some (file_metadata self' !! p))
  /\ (forall p m,
         file_metadata self' !! p = Some m ->
         file_metadata self !! p = Some m
         \/ exists local_files,
              get_local_files self w = (Return local_files, w)
              /\ local_files !! p = Some m)
  /\ (forall local_files,
         is_syncing self = false ->
         get_local_files self w = (Return local_files, w) ->
         file_metadata self' = local_files ∪ file_metadata self
         /\ exists data,
              snap_files data
              = Some (to_dict <$> (local_files ∪ file_metadata self))
              /\ f_text <$> fs w' !! metadata_file self
                 = Some (json_dumps data)).
Proof.
  cbn zeta. destruct (is_syncing self) eqn:Hs.
  { unfold sync_files. rewrite Hs. cbn [fst snd].
    split; [done|]. split; [by left | discriminate]. }
  rewrite (sync_files_unfold _ _ Hs).
  destruct (get_local_files self w) as [[local_files|e] w1] eqn:Hscan.
  2:{ cbn [fst snd]. split; [done|]. split; [by left|]. intros ? _ [=]. }
  pose proof (get_local_files_world _ _ _ _ Hscan) as ->.
  destruct (get_remote_files_returns (set_is_syncing self true) w)
    as (remote_files & w2 & -> & _).
  pose proof (execute_and_persist_frame local_files
                (plan_sync_actions (set_is_syncing self true)
                   local_files remote_files)
                (set_is_syncing self true) w2) as Hframe.
  destruct (execute_and_persist _ _ _ w2) as [[r self1] w3].
  destruct Hframe as (-> & _ & Hfm & _ & _ & _ & Hfile).
  cbn [fst snd sync_finish set_is_syncing file_metadata] in *.
  rewrite Hfm. split; [|split].
  - intros p [m Hm]. destruct (local_files !! p) as [m'|] eqn:Hl.
    + exists m'. by apply lookup_union_Some_l.
    + exists m. rewrite lookup_union_r; done.
  - intros p m Hm. apply lookup_union_Some_raw in Hm as [Hm|[_ Hm]].
    + right. by exists local_files.
    + by left.
  - intros lf _ [= <-]. split; [reflexivity | exact Hfile].
Qed.

(** The handler of local changes leaves the flag, the stored metadata and
    the statistics alone. *)
Lemma handle_local_change_frame self file_path change_type w :
  let self' := (handle_local_change self file_path change_type w).1 in
  is_syncing self' = is_syncing self
  /\ file_metadata self' = file_metadata self
  /\ stats self' = stats self.
Proof.
  unfold handle_local_change, handle_local_change_begin,
    handle_local_change_resume.
  destruct (relative_to file_path (local_dir self)) as [rel|e]; [|done].
  destruct (startswith "." (path_name rel)); [done|].
  cbn [pending_changes set_pending_changes].
  destruct (bool_decide _); [|done].
  by destruct (sync_single_file _ _ w).
Qed.

(** A move of a pass keeps the flag while the pass goes on and lowers it
    when the pass ends. *)
Lemma pass_step_flag pass self w :
  let '(next, self', _) := pass_step pass self w in
  match next with
  | Some _ => is_syncing self' = is_syncing self
  | None => is_syncing self' = false
  end.
Proof.
  destruct pass as [|local_files remote_files|local_files actions];
    cbn [pass_step].
  - destruct (get_local_files self w) as [[local_files|e] w1].
    + destruct (get_remote_files self w1) as [[remote_files|e] w2];
        reflexivity.
    + reflexivity.
  - reflexivity.
  - destruct (execute_and_persist local_files actions self w)
      as [[r self1] w1].
    by destruct r.
Qed.

Lemma system_step_guard_ok s ev : guard_ok s -> guard_ok (system_step s ev).
Proof.
  unfold guard_ok. intros Hok. destruct ev as [|i|file_path change_type].
  - cbn [system_step]. destruct (is_syncing (mgr s)) eqn:Hs.
    + by rewrite Hs.
    + cbn [running mgr is_syncing set_is_syncing].
      rewrite length_app, Hok. reflexivity.
  - cbn [system_step].
    destruct (running s !! i) as [pass|] eqn:Hi; [|exact Hok].
    pose proof (pass_step_flag pass (mgr s) (world s)) as Hflag.
    destruct (pass_step pass (mgr s) (world s)) as [[next self'] w'].
    cbn [running mgr].
    destruct (is_syncing (mgr s)) eqn:Hs.
    2:{ destruct (running s); [|discriminate]. by destruct i. }
    destruct (running s) as [|p0 [|p1 tl]]; try discriminate.
    destruct i as [|i]; [|discriminate].
    destruct next as [q|]; rewrite Hflag; reflexivity.
  - cbn [system_step].
    pose proof (handle_local_change_frame (mgr s) file_path change_type
                  (world s)) as (Hflag & _).
    destruct (handle_local_change _ _ _ _) as [self' w'].
    cbn [running mgr fst] in *. by rewrite Hflag.
Qed.

Lemma system_run_guard_ok evs s : guard_ok s -> guard_ok (system_run s evs).
Proof.
  revert s. induction evs as [|ev evs IH]; intros s Hok; [exact Hok|].
  apply IH. by apply system_step_guard_ok.
Qed.

(** A pass run with nothing in between is [sync_files]. *)
Lemma sync_files_as_steps self w :
  is_syncing self = false ->
  system_run {| mgr := self; world := w; running := [] |}
    [RequestSync; Advance 0; Advance 0; Advance 0]
  = {| mgr := (sync_files self w).1; world := (sync_files self w).2;
       running := [] |}.
Proof.
  intros Hs. rewrite (sync_files_unfold _ _ Hs).
  unfold system_run. cbn [fold_left]. cbn [system_step mgr world running].
  rewrite Hs. cbn [app lookup list_lookup mgr world running pass_step].
  rewrite get_local_files_set_is_syncing.
  destruct (get_local_files self w) as [[local_files|e] w1]; [|reflexivity].
  destruct (get_remote_files _ w1) as [[remote_files|e] w2]; [|reflexivity].
  cbn [insert list_insert lookup list_lookup mgr world running pass_step].
  destruct (execute_and_persist _ _ _ w2) as [[r self1] w3]. reflexivity.
Qed.

(** C5: from a state where the guard is right, whatever the event loop
    runs, there is no pass in progress and the flag is down, or one pass and
    the flag is up; while it is up a call of [sync_files] returns without a
    change to the manager, the world or the passes in progress, so the
    events that follow run as if it had not been made; and a call made with
    the flag down ends with the flag down. *)
Theorem one_full_pass_at_a_time s evs :
  guard_ok s ->
  let s' := system_run s evs in
  (running s' = [] /\ is_syncing (mgr s') = false
   \/ exists pass, running s' = [pass] /\ is_syncing (mgr s') = true)
  /\ (is_syncing (mgr s') = true ->
      sync_files (mgr s') (world s') = (mgr s', world s')
      /\ system_step s' RequestSync = s'
      /\ forall more, system_run s' (RequestSync :: more) = system_run s' more)
  /\ (is_syncing (mgr s') = false ->
      is_syncing (sync_files (mgr s') (world s')).1 = false).
Proof.
  intros Hok s'. pose proof (system_run_guard_ok evs s Hok) as Hok'.
  fold s' in Hok'. unfold guard_ok in Hok'. split; [|split].
  - destruct (is_syncing (mgr s')).
    + right. destruct (running s') as [|pass [|? ?]]; try discriminate.
      by exists pass.
    + left. by destruct (running s').
  - intros Hs.
    assert (system_step s' RequestSync = s') as Hstep.
    { cbn [system_step]. by rewrite Hs. }
    split; [unfold sync_files; by rewrite Hs|]. split; [exact Hstep|].
    intros more. unfold system_run. cbn [fold_left]. by rewrite Hstep.
  - intros Hs. unfold sync_files. rewrite Hs.
    by destruct (sync_try _ _) as [[[u|e] self1] w1].
Qed.










(** [relative_to] on a path inside the directory. *)
Lemma relative_to_joinpath base rel :
  relative_to (joinpath base rel) base = Return rel.
Proof.
  unfold relative_to, joinpath.
  destruct (String.eqb_spec (base +:+ "/" +:+ rel) base) as [Heq|_].
  - apply (f_equal String.length) in Heq.
    rewrite !length_append in Heq. cbn [String.length] in Heq. lia.
  - by rewrite <- append_assoc, strip_prefix_app.
Qed.

(** An entry of the scan: the file it comes from is the one at its key, and
    its name does not start with a dot. *)
Lemma scan_entry_Some self file_path f key m :
  scan_entry self (file_path, f) = Some (key, m) ->
  file_path = joinpath (local_dir self) key
  /\ startswith "." (path_name key) = false.
Proof.
  unfold scan_entry. cbn [fst snd]. unfold startswith at 1.
  destruct (strip_prefix (local_dir self +:+ "/") file_path) as [rel|] eqn:Hrel;
    [|discriminate].
  apply strip_prefix_Some in Hrel. rewrite append_assoc in Hrel.
  change (file_path = joinpath (local_dir self) rel) in Hrel. subst file_path.
  rewrite path_name_joinpath, relative_to_joinpath.
  destruct (String.eqb_spec (path_name rel) "") as [|Hname]; [discriminate|].
  destruct (startswith "." (path_name rel)) eqn:Hdot; [discriminate|].
  cbn [negb andb]. unfold path_str.
  destruct (String.eqb_spec rel "") as [->|_]; [by destruct Hname|].
  intros [= <- _]. by split.
Qed.

Lemma scan_entry_dot self file_path f :
  startswith "." (path_name file_path) = true ->
  scan_entry self (file_path, f) = None.
Proof.
  intros Hdot. unfold scan_entry. cbn [fst]. rewrite Hdot.
  cbn [negb]. by rewrite andb_false_r.
Qed.

Lemma get_local_files_keys self w local_files w' key :
  get_local_files self w = (Return local_files, w') ->
  is_Some (local_files !! key) ->
  startswith "." (path_name key) = false.
Proof.
  unfold get_local_files. destruct (walk_error w); [discriminate|].
  intros [= <- _] [m Hm].
  apply elem_of_list_to_map_2, list_elem_of_omap in Hm
    as ([file_path f] & _ & Hentry).
  by apply scan_entry_Some in Hentry as [_ ?].
Qed.

(** With nothing on the local side, the planner uploads nothing and touches
    no local file. *)
Lemma determine_sync_action_local_absent self p remote_meta stored_meta a :
  determine_sync_action self p None remote_meta stored_meta = Some a ->
  action a = "download" \/ action a = "skip" \/ action a = "delete_remote".
Proof.
  unfold determine_sync_action, handle_delete_conflict.
  destruct remote_meta as [r|]; [|discriminate].
  destruct stored_meta as [s|].
  - destruct (String.eqb (conflict_resolution self) "ask");
      intros [= <-]; cbn; auto.
  - intros [= <-]. cbn; auto.
Qed.

(** C10: the scan skips every file whose name starts with a dot, so no key
    of its result has such a name; the handler of local changes returns for
    such a file with the manager and the world as they were (nothing
    pending, nothing sent); an action planned for such a path is planned
    with the local side absent, so it is no upload and touches no local
    file; and the snapshot file is such a file. *)
Theorem dot_files_stay_local self w :
  (forall file_path f,
      startswith "." (path_name file_path) = true ->
      scan_entry self (file_path, f) = None)
  /\ (forall local_files key,
         get_local_files self w = (Return local_files, w) ->
         is_Some (local_files !! key) ->
         startswith "." (path_name key) = false)
  /\ (forall rel change_type,
         startswith "." (path_name rel) = true ->
         handle_local_change self (joinpath (local_dir self) rel)
           change_type w = (self, w))
  /\ (forall local_files remote_files,
         get_local_files self w = (Return local_files, w) ->
         Forall (fun a =>
                   startswith "." (path_name (a_path a)) = true ->
                   action a = "download" \/ action a = "skip"
                   \/ action a = "delete_remote")
           (plan_sync_actions self local_files remote_files))
  /\ metadata_file self = joinpath (local_dir self) ".lokus-sync-metadata.json"
  /\ startswith "." (path_name (metadata_file self)) = true.
Proof.
  split; [apply scan_entry_dot|]. split; [|split; [|split; [|split]]].
  - intros local_files key Hscan. by apply (get_local_files_keys self w _ w).
  - intros rel change_type Hdot.
    unfold handle_local_change, handle_local_change_begin.
    by rewrite relative_to_joinpath, Hdot.
  - intros local_files remote_files Hscan. apply Forall_forall.
    intros a Ha Hdot.
    apply plan_sync_actions_elem in Ha as (p & _ & Hact).
    pose proof (determine_sync_action_path _ _ _ _ _ _ Hact) as Hp.
    rewrite Hp in Hdot.
    destruct (local_files !! p) as [l|] eqn:Hl.
    + rewrite (get_local_files_keys self w _ w p Hscan) in Hdot by eauto.
      discriminate.
    + by apply determine_sync_action_local_absent in Hact.
  - reflexivity.
  - unfold metadata_file. by rewrite path_name_joinpath.
Qed.

End ManagerFacts.

(** ** Protocol client *)

Section ProtocolFacts.

Import MCPClient.

Implicit Types (c : Client) (data : Inbound) (id : Z).

(** A message that does not carry [id] leaves the waiter of [id], the
    channel and the counter as they are. *)
Lemma handle_message_other c data id :
  in_id data <> Some id ->
  let c' := (handle_message c data).1 in
  pending_requests c' !! id = pending_requests c !! id
  /\ ws c' = ws c /\ message_id c' = message_id c.
Proof.
  intros Hid. unfold handle_message.
  destruct (in_id data) as [id'|]; [|done].
  destruct (pending_requests c !! id'); [|done].
  cbn. split; [|done]. apply lookup_delete_ne. congruence.
Qed.

Lemma handle_messages_other msgs c id :
  Forall (fun data => in_id data <> Some id) msgs ->
  let c' := (handle_messages c msgs).1 in
  pending_requests c' !! id = pending_requests c !! id
  /\ ws c' = ws c /\ message_id c' = message_id c.
Proof.
  revert c. induction msgs as [|data msgs IH]; intros c Hall; [done|].
  apply Forall_cons in Hall as [Hdata Hall]. cbn [handle_messages].
  pose proof (handle_message_other c data id Hdata) as (Hp & Hw & Hm).
  destruct (handle_message c data) as [c1 settled].
  specialize (IH c1 Hall).
  destruct (handle_messages c1 msgs) as [c2 more].
  cbn [fst] in *. destruct IH as (-> & -> & ->). done.
Qed.

(** A message whose id has no waiter changes nothing and settles nothing. *)
Lemma handle_message_no_waiter c data id :
  in_id data = Some id ->
  pending_requests c !! id = None ->
  handle_message c data = (c, None).
Proof. unfold handle_message. by intros -> ->. Qed.

(** The ids of requests only grow: the one a request takes is below the
    counter from then on. *)
Lemma send_request_begin_counter c req :
  message_id (send_request_begin c req).2 = message_id c
  \/ message_id (send_request_begin c req).2 = (message_id c + 1)%Z.
Proof.
  unfold send_request_begin. destruct (ws c) as [ch|]; [|by left].
  destruct (ch_open ch); by right.
Qed.

(** C6: a request is sent on an open channel and, while it waits, only
    messages for other ids come in.  The wait then lasts the whole timeout
    of 30 seconds and ends in a timeout; [send_request] raises
    [TimeoutError]; the waiter of the id is gone from [pending_requests];
    the channel is as it was after the send, open; and a response that
    comes later with this id changes nothing and settles no future. *)
Theorem request_timeout_releases_waiter c ch req msgs :
  ws c = Some ch ->
  ch_open ch = true ->
  Forall (fun data => in_id data <> Some (message_id c)) msgs ->
  let id := message_id c in
  let c1 := (send_request_begin c req).2 in
  let c2 := (handle_messages c1 msgs).1 in
  let waited := wait_for None request_timeout in
  let c3 := (send_request_finish c2 id req waited.2).2 in
  (send_request_begin c req).1 = Return (id, futures_made c)
  /\ pending_requests c2 !! id = Some (futures_made c)
  /\ waited = (30%float, TimedOut)
  /\ (forall t r, PrimFloat.ltb t request_timeout = false ->
                  wait_for (Some (t, r)) request_timeout
                  = (request_timeout, TimedOut))
  /\ (send_request_finish c2 id req waited.2).1
     = Raise (TimeoutError ("Request " +:+ method_of req +:+ " timed out"))
  /\ pending_requests c3 !! id = None
  /\ ws c3 = Some (mkChannel true (ch_sent ch ++ [(id, req)]))
  /\ message_id c3 = (id + 1)%Z
  /\ (forall late, in_id late = Some id -> handle_message c3 late = (c3, None)).
Proof.
  intros Hws Hopen Hmsgs id c1 c2 waited c3.
  assert (send_request_begin c req
          = (Return (id, futures_made c),
             {| ws := Some (mkChannel true (ch_sent ch ++ [(id, req)]));
                message_id := (id + 1)%Z;
                pending_requests := <[id := futures_made c]> (pending_requests c);
                is_initialized := is_initialized c;
                subscriptions := subscriptions c;
                futures_made := S (futures_made c) |})) as Hbegin.
  { unfold send_request_begin. by rewrite Hws, Hopen. }
  pose proof (handle_messages_other msgs c1 id Hmsgs) as (Hp & Hw & Hm).
  fold c2 in Hp, Hw, Hm. unfold c1 in Hp, Hw, Hm.
  rewrite Hbegin in Hp, Hw, Hm. cbn [snd pending_requests ws message_id] in *.
  rewrite lookup_insert_eq in Hp.
  assert (pending_requests c3 !! id = None) as Hgone.
  { unfold c3. cbn. apply lookup_delete_eq. }
  split; [by rewrite Hbegin|]. split; [exact Hp|]. split; [reflexivity|].
  split; [intros t r Ht; unfold wait_for; by rewrite Ht|].
  split; [reflexivity|]. split; [exact Hgone|].
  split; [exact Hw|]. split; [exact Hm|].
  intros late Hlate. by apply (handle_message_no_waiter _ _ id).
Qed.

End ProtocolFacts.

(** ** More on paths *)

Section PathFacts.

Implicit Types (s t p n : string) (c : ascii).

Lemma path_dir_plain s : contains_char "/" s = false -> path_dir s = "".
Proof.
  destruct s as [|c s]; [reflexivity|]. cbn [contains_char path_dir].
  destruct (Ascii.eqb_spec "/"%char c) as [<-|Hc]; [discriminate|].
  intros ->. destruct (Ascii.eqb_spec c "/"); [congruence | reflexivity].
Qed.

Lemma contains_path_dir p :
  contains_char "/" p = true -> contains_char "/" (path_dir p) = true.
Proof.
  induction p as [|c p IH]; [discriminate|]. cbn [contains_char path_dir].
  destruct (contains_char "/" p) eqn:Hp.
  - intros _. cbn [contains_char]. rewrite (IH eq_refl).
    by destruct (Ascii.eqb "/" c).
  - destruct (Ascii.eqb_spec "/"%char c) as [<-|Hc]; [|discriminate].
    intros _. reflexivity.
Qed.

(** A name put after the directory part of a path is the name of the
    result, and the directory part is kept. *)
Lemma path_name_dir_app p n :
  contains_char "/" n = false -> path_name (path_dir p +:+ n) = n.
Proof.
  intros Hn. induction p as [|c p IH].
  - by apply path_name_plain.
  - cbn [path_dir]. destruct (contains_char "/" p) eqn:Hp.
    + rewrite append_cons. cbn [path_name].
      rewrite contains_char_app, (contains_path_dir _ Hp). exact IH.
    + destruct (Ascii.eqb_spec c "/") as [->|Hc].
      * rewrite append_cons, append_nil_l. cbn [path_name].
        by rewrite Hn, Ascii.eqb_refl.
      * by apply path_name_plain.
Qed.

Lemma path_dir_dir_app p n :
  contains_char "/" n = false -> path_dir (path_dir p +:+ n) = path_dir p.
Proof.
  intros Hn. induction p as [|c p IH].
  - by apply path_dir_plain.
  - cbn [path_dir]. destruct (contains_char "/" p) eqn:Hp.
    + rewrite append_cons. cbn [path_dir].
      rewrite contains_char_app, (contains_path_dir _ Hp). cbn [orb].
      by rewrite IH.
    + destruct (Ascii.eqb_spec c "/") as [->|Hc].
      * rewrite append_cons, append_nil_l. cbn [path_dir].
        by rewrite Hn, Ascii.eqb_refl.
      * by apply path_dir_plain.
Qed.

Lemma path_dir_joinpath dir rel :
  path_dir (joinpath dir rel) = dir +:+ "/" +:+ path_dir rel.
Proof.
  unfold joinpath. induction dir as [|c dir IH].
  - rewrite !append_nil_l, !append_cons, !append_nil_l. cbn [path_dir].
    rewrite Ascii.eqb_refl.
    destruct (contains_char "/" rel) eqn:Hrel; [reflexivity|].
    by rewrite (path_dir_plain _ Hrel).
  - rewrite !(append_cons c dir). cbn [path_dir].
    rewrite contains_char_app, append_cons, append_nil_l.
    cbn [contains_char]. rewrite Ascii.eqb_refl, orb_true_r.
    exact (f_equal (String c) IH).
Qed.

(** The stem of a name starts with the first character of the name. *)
Lemma name_stem_head c rest :
  exists pre, name_stem (String c rest) = String c pre.
Proof.
  pose proof (name_stem_suffix (String c rest)) as Hname.
  destruct (name_stem (String c rest)) as [|d pre] eqn:Hstem.
  - exfalso. rewrite append_nil_l in Hname. unfold name_suffix in Hname.
    destruct (last_dot_tail rest) as [t|] eqn:Ht; [|discriminate].
    destruct (String.length t =? 1)%nat; [discriminate|].
    apply last_dot_tail_is_suffix in Ht as [pre' ->].
    apply (f_equal String.length) in Hname.
    cbn [String.length] in Hname. rewrite length_append in Hname. lia.
  - rewrite append_cons in Hname. injection Hname as -> _. by exists pre.
Qed.

Lemma name_stem_no_sep name :
  contains_char "/" name = false ->
  contains_char "/" (name_stem name) = false.
Proof.
  intros H. rewrite (name_stem_suffix name), contains_char_app in H.
  by apply orb_false_elim in H as [? _].
Qed.

Lemma startswith_dot_cons c s : startswith "." (String c s) = Ascii.eqb "." c.
Proof.
  unfold startswith. cbn [strip_prefix]. by destruct (Ascii.eqb "." c).
Qed.

(** The name of a conflict copy. *)
Lemma conflict_path_of_name dt p :
  path_name (conflict_path_of dt p)
  = name_stem (path_name p) +:+ ".conflict_local_" +:+ strftime_compact dt
    +:+ name_suffix (path_name p).
Proof.
  unfold conflict_path_of. apply path_name_dir_app.
  pose proof (path_name_no_sep p) as Hname.
  rewrite !contains_char_app, (name_stem_no_sep _ Hname),
    strftime_compact_no_sep, (name_suffix_no_sep _ Hname).
  reflexivity.
Qed.

Lemma conflict_path_of_dir dt p :
  path_dir (conflict_path_of dt p) = path_dir p.
Proof.
  unfold conflict_path_of. apply path_dir_dir_app.
  pose proof (path_name_no_sep p) as Hname.
  rewrite !contains_char_app, (name_stem_no_sep _ Hname),
    strftime_compact_no_sep, (name_suffix_no_sep _ Hname).
  reflexivity.
Qed.

(** The copy of a file of a directory is made in that directory. *)
Lemma conflict_path_of_joinpath dt dir rel :
  conflict_path_of dt (joinpath dir rel)
  = joinpath dir (conflict_path_of dt rel).
Proof.
  unfold conflict_path_of at 1.
  rewrite path_dir_joinpath, path_name_joinpath.
  unfold joinpath, conflict_path_of. by rewrite !append_assoc.
Qed.

(** The name of the copy starts with the character the name starts with. *)
Lemma conflict_path_of_hidden dt p :
  path_name p <> "" ->
  path_name (conflict_path_of dt p) <> ""
  /\ startswith "." (path_name (conflict_path_of dt p))
     = startswith "." (path_name p).
Proof.
  intros Hname. rewrite conflict_path_of_name.
  destruct (path_name p) as [|c rest] eqn:Hp; [done|].
  destruct (name_stem_head c rest) as [pre ->].
  rewrite append_cons. split; [discriminate|].
  by rewrite !startswith_dot_cons.
Qed.

End PathFacts.

(** ** More on the planner *)

Section PlannerMore.

Implicit Types (self : FileSyncManager) (l r s : FileMetadata).
Implicit Types (p : string) (a : SyncAction).

(** An action of one of the six kinds the executor knows. *)
Lemma handle_delete_conflict_kind self p ct :
  action (handle_delete_conflict self p ct)
  ∈ ["upload"; "download"; "delete_local"; "delete_remote"; "keep_both";
     "skip"].
Proof.
  unfold handle_delete_conflict.
  destruct (String.eqb _ "ask"); [cbn; set_solver|].
  destruct (String.eqb ct _); cbn; set_solver.
Qed.

Lemma handle_content_conflict_kind self p l r :
  action (handle_content_conflict self p l r)
  ∈ ["upload"; "download"; "delete_local"; "delete_remote"; "keep_both";
     "skip"].
Proof.
  unfold handle_content_conflict.
  repeat (match goal with |- context [if ?b then _ else _] => destruct b end);
    cbn; set_solver.
Qed.

Lemma determine_sync_action_kind self p ol or os a :
  determine_sync_action self p ol or os = Some a ->
  action a
  ∈ ["upload"; "download"; "delete_local"; "delete_remote"; "keep_both";
     "skip"].
Proof.
  unfold determine_sync_action.
  destruct ol as [l|], or as [r|], os as [s|]; intros H;
    try discriminate;
    repeat (match type of H with
            | context [if ?b then _ else _] => destruct b
            end);
    try discriminate;
    injection H as <-;
    auto using handle_delete_conflict_kind, handle_content_conflict_kind;
    cbn; set_solver.
Qed.

(** The planner decides nothing for a path that is on neither side. *)
Lemma determine_sync_action_present self p ol or os a :
  determine_sync_action self p ol or os = Some a ->
  is_Some ol \/ is_Some or.
Proof. destruct ol, or; cbn; eauto. discriminate. Qed.

Lemma omap_keys_NoDup {A B} (f : A -> option B) (g : B -> A) (xs : list A) :
  (forall x y, f x = Some y -> g y = x) ->
  NoDup xs -> NoDup (g <$> omap f xs).
Proof.
  intros Hfg. induction 1 as [|x xs Hx Hxs IH]; [constructor|].
  cbn [omap list_omap]. destruct (f x) as [y|] eqn:Hy; [|exact IH].
  rewrite fmap_cons. constructor; [|exact IH].
  rewrite (Hfg _ _ Hy). intros Hin.
  apply list_elem_of_fmap in Hin as (y' & -> & Hy').
  apply list_elem_of_omap in Hy' as (x' & Hx' & Hfx').
  by rewrite (Hfg _ _ Hfx') in Hx.
Qed.

(** X1: the planner leaves a path alone in two cases only: the path is on
    neither side, or it is on both sides with stored metadata and neither
    side has changed. *)
Theorem determine_sync_action_none_iff self p ol or os :
  determine_sync_action self p ol or os = None <->
  (ol = None /\ or = None)
  \/ (exists l r s,
        ol = Some l /\ or = Some r /\ os = Some s
        /\ local_changed l s = false /\ remote_changed r s = false).
Proof.
  unfold determine_sync_action. split.
  - destruct ol as [l|], or as [r|], os as [s|]; try discriminate;
      try (intros _; by left).
    destruct (local_changed l s) eqn:Hl, (remote_changed r s) eqn:Hr;
      try discriminate.
    intros _. right. by exists l, r, s.
  - intros [[-> ->]|(l & r & s & -> & -> & -> & -> & ->)]; reflexivity.
Qed.

(** X2: the plan holds exactly the decision of [determine_sync_action] for
    each path, so an action is in it when it is the decision for its own
    path; no two actions of a plan have the same path; and every action is
    of one of the six kinds the executor handles. *)
Theorem plan_sync_actions_one_per_path self
    (local_files remote_files : gmap string FileMetadata) :
  (forall a,
      a ∈ plan_sync_actions self local_files remote_files <->
      determine_sync_action self (a_path a) (local_files !! a_path a)
        (remote_files !! a_path a) (file_metadata self !! a_path a) = Some a)
  /\ NoDup (a_path <$> plan_sync_actions self local_files remote_files)
  /\ Forall (fun a =>
               action a
               ∈ ["upload"; "download"; "delete_local"; "delete_remote";
                  "keep_both"; "skip"])
       (plan_sync_actions self local_files remote_files).
Proof.
  split; [|split].
  - intros a. split.
    + intros Ha. apply plan_sync_actions_elem in Ha as (p & _ & Hact).
      by rewrite (determine_sync_action_path _ _ _ _ _ _ Hact).
    + intros Hact. unfold plan_sync_actions. apply list_elem_of_omap.
      exists (a_path a). split; [|exact Hact].
      apply elem_of_elements, elem_of_union.
      destruct (determine_sync_action_present _ _ _ _ _ _ Hact);
        [left | right]; by apply elem_of_dom.
  - unfold plan_sync_actions. apply omap_keys_NoDup; [|apply NoDup_elements].
    intros p a. apply determine_sync_action_path.
  - apply Forall_forall. intros a Ha.
    apply plan_sync_actions_elem in Ha as (p & _ & Hact).
    by apply determine_sync_action_kind in Hact.
Qed.

(** X3: outside the policy ['ask'] a delete conflict is resolved by the
    side of the deletion alone, whatever the policy is called: a file deleted
    remotely is deleted locally and a file deleted locally is deleted
    remotely, also under ['local_wins'], ['remote_wins'] and ['keep_both']. *)
Theorem delete_conflict_follows_deletion self p l r s :
  conflict_resolution self <> "ask" ->
  determine_sync_action self p (Some l) None (Some s)
  = Some (mkAction "delete_local" p "sync_deletion")
  /\ determine_sync_action self p None (Some r) (Some s)
     = Some (mkAction "delete_remote" p "sync_deletion").
Proof.
  intros Hask. apply String.eqb_neq in Hask.
  unfold determine_sync_action, handle_delete_conflict. by rewrite Hask.
Qed.

End PlannerMore.

(** ** More on the executor *)

Section ExecutorMore.

Context {E : Externals}.

Implicit Types (self : FileSyncManager) (w : World) (p rel : string).

(** A request is written to the channel and answered by the server; the
    local files, the clock and the walk are not concerned. *)
Lemma send_request_run req w :
  send_request req w
  = ((serve (server w) req).1,
     {| fs := fs w; now := now w; now_ts := now_ts w;
        walk_error := walk_error w; server := (serve (server w) req).2;
        sent := (sent w ++ [req])%list |}).
Proof. unfold send_request. by destruct (serve (server w) req). Qed.

Lemma set_fs_same w : set_fs w (fs w) = w.
Proof. by destruct w. Qed.



(** X6: [delete_local_file] never raises and sends nothing: afterwards
    the path holds no file and every other local file is as it was, whether
    or not there was a file to delete; a second call changes nothing. *)
Theorem delete_local_file_effect self rel w :
  let local_path := joinpath (local_dir self) rel in
  delete_local_file self rel w
  = (Return tt, set_fs w (delete local_path (fs w)))
  /\ delete_local_file self rel (delete_local_file self rel w).2
     = delete_local_file self rel w.
Proof.
  cbn zeta.
  assert (forall w0, delete_local_file self rel w0
                     = (Return tt,
                        set_fs w0 (delete (joinpath (local_dir self) rel)
                                     (fs w0)))) as Hrun.
  { intros w0. unfold delete_local_file, mbind, M_bind, path_exists, unlink.
    destruct (fs w0 !! joinpath (local_dir self) rel) as [f|] eqn:Hf.
    - rewrite bool_decide_eq_true_2 by eauto. by rewrite Hf.
    - rewrite bool_decide_eq_false_2 by (intros [? ?]; congruence).
      by rewrite delete_id, set_fs_same. }
  split; [apply Hrun|]. rewrite !Hrun. cbn [snd fs set_fs].
  by rewrite delete_delete_eq.
Qed.

(** X7: an action of kind [skip] does nothing and returns, so it counts as
    a synced file: executing a list of skips leaves the world as it was,
    adds the length of the list to [files_synced] and nothing to
    [errors]. *)
Theorem skips_count_as_synced actions self w :
  Forall (fun a => action a = "skip") actions ->
  (execute_sync_actions actions self w).2 = w
  /\ files_synced (stats (execute_sync_actions actions self w).1)
     = (files_synced (stats self) + Z.of_nat (length actions))%Z
  /\ errors (stats (execute_sync_actions actions self w).1)
     = errors (stats self).
Proof.
  revert self. induction actions as [|a rest IH]; intros self Hall.
  - cbn. repeat split; lia.
  - apply Forall_cons in Hall as [Ha Hrest].
    cbn [execute_sync_actions].
    assert (execute_single_action self a w = (Return tt, w)) as ->.
    { unfold execute_single_action. rewrite Ha. reflexivity. }
    destruct (IH (incr_files_synced self) Hrest) as (-> & -> & ->).
    cbn [length stats incr_files_synced set_stats files_synced errors].
    repeat split; lia.
Qed.

End ExecutorMore.

(** ** More on the scan *)

Section ScanMore.

Context {E : Externals}.

Implicit Types (self : FileSyncManager) (w : World) (p rel key : string).

(** The metadata the scan computes for a file. *)
Lemma scan_entry_joinpath self key f :
  path_name key <> "" ->
  startswith "." (path_name key) = false ->
  scan_entry self (joinpath (local_dir self) key, f)
  = Some (key, FileMetadata_init key (Z.of_nat (String.length (f_text f)))
                 (f_mtime f) (md5_hexdigest (f_text f))).
Proof.
  intros Hname Hdot. unfold scan_entry. cbn [fst snd].
  assert (startswith (local_dir self +:+ "/") (joinpath (local_dir self) key)
          = true) as ->.
  { unfold startswith, joinpath. by rewrite <- append_assoc, strip_prefix_app. }
  rewrite path_name_joinpath, Hdot, relative_to_joinpath.
  apply String.eqb_neq in Hname as Hname'. rewrite Hname'. cbn [negb andb].
  unfold path_str. destruct (String.eqb_spec key "") as [->|_]; [done|].
  reflexivity.
Qed.

Lemma scan_entry_inv self file_path f key m :
  scan_entry self (file_path, f) = Some (key, m) ->
  file_path = joinpath (local_dir self) key
  /\ path_name key <> ""
  /\ startswith "." (path_name key) = false
  /\ m = FileMetadata_init key (Z.of_nat (String.length (f_text f)))
           (f_mtime f) (md5_hexdigest (f_text f)).
Proof.
  intros Hentry.
  destruct (scan_entry_Some _ _ _ _ _ Hentry) as [-> Hdot].
  assert (path_name key <> "") as Hname.
  { intros Hempty. unfold scan_entry in Hentry. cbn [fst] in Hentry.
    rewrite path_name_joinpath, Hempty in Hentry.
    by rewrite andb_false_r in Hentry. }
  rewrite (scan_entry_joinpath _ _ _ Hname Hdot) in Hentry.
  by injection Hentry as <-.
Qed.

Lemma joinpath_inj dir rel rel' :
  joinpath dir rel = joinpath dir rel' -> rel = rel'.
Proof.
  intros H. pose proof (relative_to_joinpath dir rel) as H1.
  rewrite H, relative_to_joinpath in H1. congruence.
Qed.



(** X9: the conflict copy of a file the scan records is a file the scan
    records too, under the conflict name of the key: a copy made by
    [keep_both] is an ordinary local file for the passes that follow. *)
Theorem conflict_copy_is_scanned self dt file_path f key m f' :
  scan_entry self (file_path, f) = Some (key, m) ->
  scan_entry self (conflict_path_of dt file_path, f')
  = Some (conflict_path_of dt key,
          FileMetadata_init (conflict_path_of dt key)
            (Z.of_nat (String.length (f_text f'))) (f_mtime f')
            (md5_hexdigest (f_text f'))).
Proof.
  intros Hentry. apply scan_entry_inv in Hentry as (-> & Hname & Hdot & _).
  rewrite conflict_path_of_joinpath.
  destruct (conflict_path_of_hidden dt key Hname) as [Hname' Hdot'].
  apply scan_entry_joinpath; [exact Hname' | by rewrite Hdot'].
Qed.

End ScanMore.

(** ** What the operations leave alone *)

Section Frames.

Context {E : Externals}.

Implicit Types (self : FileSyncManager) (w : World) (p rel : string).

Lemma keeps_clock_ret {A} (a : A) : keeps_clock (mret a).
Proof. by intros w. Qed.

Lemma keeps_clock_raise {A} e : keeps_clock (raise (A := A) e).
Proof. by intros w. Qed.

Lemma keeps_clock_bind {A B} (m : M A) (k : A -> M B) :
  keeps_clock m -> (forall a, keeps_clock (k a)) -> keeps_clock (m ≫= k).
Proof.
  intros Hm Hk w. unfold mbind, M_bind. specialize (Hm w).
  destruct (m w) as [[a|e] w1]; cbn [snd] in *; [|exact Hm].
  destruct (Hk a w1) as (-> & -> & ->). exact Hm.
Qed.

Lemma keeps_clock_try {A} (m : M A) (h : Exc -> M A) :
  keeps_clock m -> (forall e, keeps_clock (h e)) -> keeps_clock (try_except m h).
Proof.
  intros Hm Hh w. unfold try_except. specialize (Hm w).
  destruct (m w) as [[a|e] w1]; cbn [snd] in *; [exact Hm|].
  destruct (Hh e w1) as (-> & -> & ->). exact Hm.
Qed.

Lemma keeps_clock_send_request req : keeps_clock (send_request req).
Proof. intros w. by rewrite send_request_run. Qed.

Lemma keeps_clock_read_text p : keeps_clock (read_text p).
Proof. intros w. unfold read_text. by destruct (fs w !! p). Qed.

Lemma keeps_clock_write_text p text : keeps_clock (write_text p text).
Proof. by intros w. Qed.

Lemma keeps_clock_unlink p : keeps_clock (unlink p).
Proof. intros w. unfold unlink. by destruct (fs w !! p). Qed.

Lemma keeps_clock_path_exists p : keeps_clock (path_exists p).
Proof. by intros w. Qed.

Lemma keeps_clock_if {A} (b : bool) (m1 m2 : M A) :
  keeps_clock m1 -> keeps_clock m2 -> keeps_clock (if b then m1 else m2).
Proof. by destruct b. Qed.

Create HintDb frames.

#[local] Hint Resolve keeps_clock_ret keeps_clock_raise keeps_clock_send_request
  keeps_clock_read_text keeps_clock_write_text keeps_clock_unlink
  keeps_clock_path_exists : frames.

Ltac keeps_clock_steps :=
  repeat first
    [ solve [auto with frames]
    | apply keeps_clock_bind; [|intros ?]
    | apply keeps_clock_try; [|intros ?]
    | apply keeps_clock_if ].

Lemma keeps_clock_list_files prefix : keeps_clock (list_files prefix).
Proof. unfold list_files. keeps_clock_steps. Qed.

Lemma keeps_clock_read_file remote_path : keeps_clock (read_file remote_path).
Proof.
  unfold read_file. keeps_clock_steps.
  destruct (resp_contents _) as [[|? ?]|]; auto with frames.
Qed.

Lemma keeps_clock_write_file remote_path content :
  keeps_clock (write_file remote_path content).
Proof. unfold write_file. keeps_clock_steps. Qed.

Lemma keeps_clock_delete_file remote_path :
  keeps_clock (delete_file remote_path).
Proof. unfold delete_file. keeps_clock_steps. Qed.

#[local] Hint Resolve keeps_clock_list_files keeps_clock_read_file
  keeps_clock_write_file keeps_clock_delete_file : frames.

Lemma keeps_clock_upload_file self rel : keeps_clock (upload_file self rel).
Proof. unfold upload_file. keeps_clock_steps. Qed.

Lemma keeps_clock_download_file self rel :
  keeps_clock (download_file self rel).
Proof. unfold download_file. cbn zeta. keeps_clock_steps. Qed.

Lemma keeps_clock_delete_local_file self rel :
  keeps_clock (delete_local_file self rel).
Proof. unfold delete_local_file. keeps_clock_steps. Qed.

Lemma keeps_clock_delete_remote_file self rel :
  keeps_clock (delete_remote_file self rel).
Proof. unfold delete_remote_file. keeps_clock_steps. Qed.

#[local] Hint Resolve keeps_clock_upload_file keeps_clock_download_file
  keeps_clock_delete_local_file keeps_clock_delete_remote_file : frames.

Lemma keeps_clock_create_conflict_copy self rel :
  keeps_clock (create_conflict_copy self rel).
Proof.
  intros w. unfold create_conflict_copy.
  destruct (with_suffix _ _) as [conflict_path|e]; [|done].
  revert w. change (keeps_clock
    (present ← path_exists (joinpath (local_dir self) rel);
     _ ← (if present : bool
          then (_ ← read_text (joinpath (local_dir self) rel);
                _ ← write_text conflict_path "";
                text ← read_text (joinpath (local_dir self) rel);
                write_text conflict_path text)
          else mret tt);
     download_file self rel)).
  keeps_clock_steps.
Qed.

Lemma keeps_clock_execute_single_action self a :
  keeps_clock (execute_single_action self a).
Proof.
  unfold execute_single_action.
  keeps_clock_steps; apply keeps_clock_create_conflict_copy.
Qed.

Lemma execute_sync_actions_clock actions self w :
  now (execute_sync_actions actions self w).2 = now w
  /\ now_ts (execute_sync_actions actions self w).2 = now_ts w
  /\ walk_error (execute_sync_actions actions self w).2 = walk_error w.
Proof.
  revert self w. induction actions as [|a rest IH]; intros self w; [done|].
  cbn [execute_sync_actions].
  pose proof (keeps_clock_execute_single_action self a w) as Ha.
  destruct (execute_single_action self a w) as [[u|e] w1]; cbn [snd] in Ha;
    destruct Ha as (<- & <- & <-); apply IH.
Qed.

Lemma keeps_clock_get_remote_files self : keeps_clock (get_remote_files self).
Proof. unfold get_remote_files. keeps_clock_steps. Qed.

Lemma keeps_clock_sync_single_file self rel :
  keeps_clock (sync_single_file self rel).
Proof. unfold sync_single_file. keeps_clock_steps. Qed.

End Frames.

(** ** More on the metadata store *)

Section StoreMore.

Context {E : Externals}.

Implicit Types (self other : FileSyncManager) (w : World) (p : string).

Lemma from_dict_to_dict m : from_dict (to_dict m) = Return m.
Proof. by destruct m. Qed.

Lemma stats_update_to_dict st st' : stats_update st (stats_to_dict st') = st'.
Proof. by destruct st'. Qed.

(** When every entry has its keys, [files_from_dicts] returns the map of
    the records. *)
Lemma files_from_dicts_ok (files : gmap string MetaDict) :
  (forall p d, files !! p = Some d -> is_Some (from_dict_option d)) ->
  files_from_dicts files = Return (omap from_dict_option files).
Proof.
  unfold files_from_dicts.
  apply (map_fold_weak_ind
           (fun r (md : gmap string MetaDict) =>
              (forall p d, md !! p = Some d -> is_Some (from_dict_option d)) ->
              r = Return (omap from_dict_option md))).
  - intros _. by rewrite omap_empty.
  - intros p d md r Hfresh IH Hall.
    rewrite IH.
    2:{ intros q d' Hq. apply (Hall q). rewrite lookup_insert_ne; [done|].
        intros ->. congruence. }
    destruct (Hall p d) as [m Hm]; [by rewrite lookup_insert_eq|].
    unfold from_dict_option in Hm.
    destruct (from_dict d) as [m'|e] eqn:Hd; [|discriminate].
    injection Hm as ->.
    rewrite (omap_insert_Some _ _ _ _ m); [done|].
    unfold from_dict_option. by rewrite Hd.
Qed.

(** One entry without its keys makes the whole comprehension raise. *)
Lemma files_from_dicts_bad (files : gmap string MetaDict) p d :
  files !! p = Some d ->
  from_dict_option d = None ->
  exists e, files_from_dicts files = Raise e.
Proof.
  intros Hp Hd. revert p d Hp Hd. unfold files_from_dicts.
  apply (map_fold_weak_ind
           (fun r (md : gmap string MetaDict) =>
              forall p d, md !! p = Some d -> from_dict_option d = None ->
                          exists e, r = Raise e)).
  - intros p d Hp. by rewrite lookup_empty in Hp.
  - intros q d' md r Hfresh IH p d Hp Hd.
    destruct (decide (q = p)) as [->|Hne].
    + rewrite lookup_insert_eq in Hp. injection Hp as ->.
      unfold from_dict_option in Hd.
      destruct r as [m|e]; [|by exists e].
      destruct (from_dict d) as [m'|e]; [discriminate | by exists e].
    + rewrite lookup_insert_ne in Hp by done.
      destruct (IH p d Hp Hd) as [e ->]. by exists e.
Qed.

Lemma files_from_dicts_to_dict (m : gmap string FileMetadata) :
  files_from_dicts (to_dict <$> m) = Return m.
Proof.
  rewrite files_from_dicts_ok.
  - f_equal. apply map_eq. intros p.
    rewrite lookup_omap, lookup_fmap.
    destruct (m !! p) as [x|]; [|done].
    change (from_dict_option (to_dict x) = Some x).
    unfold from_dict_option. by rewrite from_dict_to_dict.
  - intros p d. rewrite lookup_fmap.
    destruct (m !! p) as [x|]; [|done]. intros [= <-].
    unfold from_dict_option. by rewrite from_dict_to_dict.
Qed.

(** X10: a record written by [to_dict] is read back by [from_dict] as it
    was, its state tag included; a dictionary without ['sync_state'] loads
    with the tag ['unknown']; and a dictionary without one of ['path'],
    ['size'], ['mtime'], ['checksum'] raises [KeyError]. *)
Theorem metadata_dict_round_trip m d :
  from_dict (to_dict m) = Return m
  /\ (forall p sz mt ck,
         from_dict (mkMetaDict (Some p) (Some sz) (Some mt) (Some ck) None)
         = Return (mkFileMetadata p sz mt ck "unknown"))
  /\ (md_path d = None \/ md_size d = None \/ md_mtime d = None
      \/ md_checksum d = None <->
      exists key, from_dict d = Raise (KeyError key)).
Proof.
  split; [apply from_dict_to_dict|]. split; [reflexivity|].
  destruct d as [[p|] [sz|] [mt|] [ck|] st]; cbn; split;
    try (intros _; eexists; reflexivity);
    try (intros [key [=]]); try tauto.
  intros [H|[H|[H|H]]]; discriminate.
Qed.

(** X11: what [save_metadata] writes, [load_metadata] reads back, provided
    [json.loads] inverts [json.dumps] on the object written: a manager of the
    same directory that loads the file has the stored metadata and the
    statistics of the manager that saved it. *)
Theorem load_metadata_after_save self other w :
  local_dir other = local_dir self ->
  json_loads (json_dumps (saved_snapshot self (now w)))
  = Some (saved_snapshot self (now w)) ->
  let w1 := (save_metadata self w).2 in
  file_metadata (load_metadata other w1).1 = file_metadata self
  /\ stats (load_metadata other w1).1 = stats self
  /\ (load_metadata other w1).2 = w1.
Proof.
  intros Hdir Hjson. cbn zeta. rewrite save_metadata_writes. cbn [snd].
  unfold load_metadata, metadata_file. rewrite Hdir. cbn [fs set_fs].
  rewrite lookup_insert_eq. cbn [f_text].
  change (json_dumps _) with (json_dumps (saved_snapshot self (now w))).
  rewrite Hjson. cbn [saved_snapshot snap_files snap_stats default].
  unfold id. rewrite files_from_dicts_to_dict. cbn [fst snd].
  by rewrite stats_update_to_dict.
Qed.

(** X12: how loading degrades.  Without a snapshot file the manager is as
    it was.  When the file is not valid JSON, or when a single entry of
    ['files'] lacks one of its four keys, the stored metadata are emptied and
    the statistics of the file are not taken, whatever the rest of the file
    holds. *)
Theorem load_metadata_degrades self w :
  (fs w !! metadata_file self = None -> load_metadata self w = (self, w))
  /\ (forall f,
         fs w !! metadata_file self = Some f ->
         json_loads (f_text f) = None ->
         load_metadata self w = (set_file_metadata self ∅, w))
  /\ (forall f data files p d key,
         fs w !! metadata_file self = Some f ->
         json_loads (f_text f) = Some data ->
         snap_files data = Some files ->
         files !! p = Some d ->
         from_dict d = Raise (KeyError key) ->
         load_metadata self w = (set_file_metadata self ∅, w)).
Proof.
  unfold load_metadata. split; [by intros ->|]. split.
  - intros f -> Hjson. by rewrite Hjson.
  - intros f data files p d key -> -> -> Hp Hd. cbn [default]. unfold id.
    destruct (files_from_dicts_bad files p d Hp) as [e ->]; [|done].
    unfold from_dict_option. by rewrite Hd.
Qed.

End StoreMore.

(** ** More on full passes *)

Section PassMore.

Context {E : Externals}.

Implicit Types (self : FileSyncManager) (w : World) (p rel : string).

Lemma execute_and_persist_run local_files actions self w :
  execute_and_persist local_files actions self w
  = let self1 := (execute_sync_actions actions self w).1 in
    let w1 := (execute_sync_actions actions self w).2 in
    let self2 := metadata_update self1 local_files in
    (Return tt, set_last_sync self2 (isoformat (now w1)),
     set_fs w1
       (<[metadata_file self2 :=
            mkFile (json_dumps (saved_snapshot self2 (now w1))) (now_ts w1)]>
          (fs w1))).
Proof.
  unfold execute_and_persist.
  destruct (execute_sync_actions actions self w) as [self1 w1].
  by rewrite save_metadata_writes.
Qed.

(** A pass that gets through its scan, step by step. *)
Lemma sync_files_run self w local_files :
  is_syncing self = false ->
  get_local_files self w = (Return local_files, w) ->
  exists remote_files w2,
    get_remote_files (set_is_syncing self true) w = (Return remote_files, w2)
    /\ fs w2 = fs w /\ now w2 = now w
    /\ sync_files self w
       = let self0 := set_is_syncing self true in
         let actions := plan_sync_actions self0 local_files remote_files in
         let self1 := (execute_sync_actions actions self0 w2).1 in
         let w3 := (execute_sync_actions actions self0 w2).2 in
         let self2 := metadata_update self1 local_files in
         (set_is_syncing (set_last_sync self2 (isoformat (now w3))) false,
          set_fs w3
            (<[metadata_file self2 :=
                 mkFile (json_dumps (saved_snapshot self2 (now w3)))
                   (now_ts w3)]> (fs w3))).
Proof.
  intros Hs Hscan.
  destruct (get_remote_files_returns (set_is_syncing self true) w)
    as (remote_files & w2 & Hremote & Hfs).
  exists remote_files, w2. split; [exact Hremote|]. split; [exact Hfs|].
  pose proof (keeps_clock_get_remote_files (set_is_syncing self true) w)
    as (Hnow & _).
  rewrite Hremote in Hnow. split; [exact Hnow|].
  rewrite (sync_files_unfold _ _ Hs), Hscan, Hremote.
  by rewrite execute_and_persist_run.
Qed.

(** What a completed pass leaves in the manager. *)
Lemma sync_files_completed self w local_files :
  is_syncing self = false ->
  get_local_files self w = (Return local_files, w) ->
  let self' := (sync_files self w).1 in
  file_metadata self' = local_files ∪ file_metadata self
  /\ conflict_resolution self' = conflict_resolution self
  /\ local_dir self' = local_dir self.
Proof.
  intros Hs Hscan.
  destruct (sync_files_run _ _ _ Hs Hscan)
    as (remote_files & w2 & _ & _ & _ & ->).
  cbn zeta. cbn [fst].
  match goal with
  | |- context [execute_sync_actions ?a ?s ?w0] =>
      pose proof (execute_sync_actions_frame a s w0) as Hframe
  end.
  cbn zeta in Hframe.
  destruct Hframe as (Hld & _ & Hfm & Hcr & _).
  cbn [set_is_syncing set_last_sync set_stats metadata_update
         set_file_metadata file_metadata conflict_resolution local_dir] in *.
  by rewrite Hfm, Hcr, Hld.
Qed.

(** X13: a pass whose directory walk raises does nothing but count an
    error: the world is as it was (nothing sent, no file written, the
    snapshot file included), the stored metadata and the time of the last
    pass are unchanged, and the flag is down again. *)
Theorem failed_scan_only_counts_error self w e :
  is_syncing self = false ->
  walk_error w = Some e ->
  sync_files self w = (set_is_syncing (incr_errors self) false, w).
Proof.
  intros Hs Hwalk. rewrite (sync_files_unfold _ _ Hs).
  unfold get_local_files. by rewrite Hwalk.
Qed.

(** X14: a completed pass saves the snapshot before it records its own
    time: in memory [last_sync] is the time of this pass, but the statistics
    in the snapshot file carry the [last_sync] from before the pass, next to
    the counters as they are after it. *)
Theorem snapshot_file_lags_last_sync self w :
  is_syncing self = false ->
  walk_error w = None ->
  let self' := (sync_files self w).1 in
  let w' := (sync_files self w).2 in
  last_sync (stats self') = Some (isoformat (now w))
  /\ exists data sd,
       f_text <$> fs w' !! metadata_file self = Some (json_dumps data)
       /\ snap_stats data = Some sd
       /\ sd_last_sync sd = Some (last_sync (stats self))
       /\ sd_files_synced sd = Some (files_synced (stats self'))
       /\ sd_errors sd = Some (errors (stats self')).
Proof.
  intros Hs Hwalk.
  destruct (get_local_files_walk self w Hwalk) as [local_files Hscan].
  destruct (sync_files_run _ _ _ Hs Hscan)
    as (remote_files & w2 & _ & _ & Hnow & ->).
  cbn zeta. cbn [fst snd].
  match goal with
  | |- context [execute_sync_actions ?a ?s ?w0] =>
      pose proof (execute_sync_actions_frame a s w0) as Hframe;
      pose proof (execute_sync_actions_clock a s w0) as (Hclock & _);
      destruct (execute_sync_actions a s w0) as [self1 w3]
  end.
  cbn [fst snd] in *.
  destruct Hframe as (Hld & _ & _ & _ & _ & _ & _ & Hls & _).
  split; [cbn; by rewrite Hclock, Hnow|].
  eexists (saved_snapshot (metadata_update self1 local_files) (now w3)),
    (stats_to_dict (stats self1)).
  split; [|cbn in Hls |- *; by rewrite Hls].
  unfold metadata_file. cbn [local_dir metadata_update set_file_metadata
    fs set_fs]. cbn [local_dir set_is_syncing] in Hld.
  by rewrite Hld, lookup_insert_eq.
Qed.

(** X15: the stored metadata take every entry of the local scan, whatever
    the execution did with the path.  So a local file that was scanned once
    is, while it is missing on the remote side, never planned for upload
    again: the planner reads it as deleted remotely, also when the upload of
    the pass had failed. *)
Theorem scanned_file_reads_as_remotely_deleted self w local_files p l :
  is_syncing self = false ->
  get_local_files self w = (Return local_files, w) ->
  local_files !! p = Some l ->
  let self' := (sync_files self w).1 in
  file_metadata self' !! p = Some l
  /\ forall l',
       determine_sync_action self' p (Some l') None (file_metadata self' !! p)
       = Some (handle_delete_conflict self p "remote_deleted").
Proof.
  intros Hs Hscan Hl.
  destruct (sync_files_completed _ _ _ Hs Hscan) as (Hfm & Hcr & _).
  cbn zeta. rewrite Hfm, (lookup_union_Some_l _ _ _ _ Hl).
  split; [reflexivity|]. intros l'. cbn [determine_sync_action].
  unfold handle_delete_conflict. by rewrite Hcr.
Qed.

(** X16: after a completed pass the stored modification time of a scanned
    file is its local one; so at the next planning an unchanged local file
    is left alone only if the server reports exactly that time for it, and
    is downloaded with reason [remote_modified] otherwise. *)
Theorem unchanged_file_needs_equal_remote_time self w local_files p l r :
  is_syncing self = false ->
  get_local_files self w = (Return local_files, w) ->
  local_files !! p = Some l ->
  PrimFloat.eqb (fm_mtime l) (fm_mtime l) = true ->
  let self' := (sync_files self w).1 in
  determine_sync_action self' p (Some l) (Some r) (file_metadata self' !! p)
  = if PrimFloat.eqb (fm_mtime r) (fm_mtime l) then None
    else Some (mkAction "download" p "remote_modified").
Proof.
  intros Hs Hscan Hl Hnum.
  destruct (sync_files_completed _ _ _ Hs Hscan) as (Hfm & _).
  cbn zeta. rewrite Hfm, (lookup_union_Some_l _ _ _ _ Hl).
  cbn [determine_sync_action]. unfold local_changed, remote_changed.
  rewrite Hnum, String.eqb_refl. cbn [negb orb andb].
  by destruct (PrimFloat.eqb (fm_mtime r) (fm_mtime l)).
Qed.

(** X17: a path that the scan does not hold and that was not stored is not
    stored after the pass either, also when the pass has just downloaded it:
    at the next planning, with the file now on both sides, it is a content
    conflict. *)
Theorem downloaded_file_is_a_conflict_next self w local_files p l r :
  is_syncing self = false ->
  get_local_files self w = (Return local_files, w) ->
  local_files !! p = None ->
  file_metadata self !! p = None ->
  let self' := (sync_files self w).1 in
  file_metadata self' !! p = None
  /\ determine_sync_action self' p (Some l) (Some r) (file_metadata self' !! p)
     = Some (handle_content_conflict self p l r).
Proof.
  intros Hs Hscan Hl Hstored.
  destruct (sync_files_completed _ _ _ Hs Hscan) as (Hfm & Hcr & _).
  cbn zeta. rewrite Hfm, lookup_union_r, Hstored by exact Hl.
  split; [reflexivity|]. cbn [determine_sync_action].
  unfold handle_content_conflict. by rewrite Hcr.
Qed.

End PassMore.

(** ** A remote listing that fails *)

Section ListingMore.

Context {E : Externals}.

Implicit Types (self : FileSyncManager) (w : World) (p rel q : string).

Lemma get_remote_files_listing_fails self w e s' :
  serve (server w) (ResourcesList "file") = (Raise e, s') ->
  get_remote_files self w
  = (Return ∅,
     {| fs := fs w; now := now w; now_ts := now_ts w;
        walk_error := walk_error w; server := s';
        sent := (sent w ++ [ResourcesList "file"])%list |}).
Proof.
  intros Hserve.
  unfold get_remote_files, try_except, list_files, mbind, M_bind.
  by rewrite send_request_run, Hserve.
Qed.

(** With nothing listed and a policy other than ['ask'], the planner
    uploads or deletes locally. *)
Lemma plan_without_remote self (local_files : gmap string FileMetadata) :
  conflict_resolution self <> "ask" ->
  Forall (fun a => action a = "upload" \/ action a = "delete_local")
    (plan_sync_actions self local_files ∅).
Proof.
  intros Hask. apply String.eqb_neq in Hask. apply Forall_forall.
  intros a Ha. apply plan_sync_actions_elem in Ha as (p & _ & Hact).
  rewrite lookup_empty in Hact. unfold determine_sync_action in Hact.
  destruct (local_files !! p) as [l|]; [|discriminate].
  unfold handle_delete_conflict in Hact. rewrite Hask in Hact.
  destruct (file_metadata self !! p); injection Hact as <-; cbn; auto.
Qed.

Lemma plan_without_remote_deletes self
    (local_files : gmap string FileMetadata) p l s :
  conflict_resolution self <> "ask" ->
  local_files !! p = Some l ->
  file_metadata self !! p = Some s ->
  mkAction "delete_local" p "sync_deletion"
  ∈ plan_sync_actions self local_files ∅.
Proof.
  intros Hask Hl Hs. apply String.eqb_neq in Hask.
  unfold plan_sync_actions. apply list_elem_of_omap. exists p. split.
  - apply elem_of_elements, elem_of_union. left. apply elem_of_dom. eauto.
  - rewrite Hl, Hs, lookup_empty. cbn [determine_sync_action].
    unfold handle_delete_conflict. by rewrite Hask.
Qed.

Lemma upload_file_fs self rel w : fs (upload_file self rel w).2 = fs w.
Proof.
  unfold upload_file, write_file, mbind, M_bind, read_text.
  destruct (fs w !! joinpath (local_dir self) rel) as [f|]; [|done].
  rewrite send_request_run.
  destruct (serve (server w) _) as [[response|e] s']; cbn [fst snd]; [|done].
  unfold mret, M_ret, raise. by destruct (negb (resp_isError response)).
Qed.

Lemma delete_local_file_run self rel w :
  delete_local_file self rel w
  = (Return tt, set_fs w (delete (joinpath (local_dir self) rel) (fs w))).
Proof.
  unfold delete_local_file, mbind, M_bind, path_exists, unlink.
  destruct (fs w !! joinpath (local_dir self) rel) as [f|] eqn:Hf.
  - rewrite bool_decide_eq_true_2 by eauto. by rewrite Hf.
  - rewrite bool_decide_eq_false_2 by (intros [? ?]; congruence).
    by rewrite delete_id, set_fs_same.
Qed.

(** Uploads and local deletions create no local file. *)
Lemma execute_absent_stays actions self w q :
  Forall (fun a => action a = "upload" \/ action a = "delete_local") actions ->
  fs w !! q = None ->
  fs (execute_sync_actions actions self w).2 !! q = None.
Proof.
  revert self w. induction actions as [|a rest IH]; intros self w Hall Hq;
    [exact Hq|].
  apply Forall_cons in Hall as [Ha Hrest]. cbn [execute_sync_actions].
  assert (fs (execute_single_action self a w).2 !! q = None) as Hstep.
  { unfold execute_single_action. destruct Ha as [-> | ->].
    - change (fs (upload_file self (a_path a) w).2 !! q = None).
      by rewrite upload_file_fs.
    - change (fs (delete_local_file self (a_path a) w).2 !! q = None).
      rewrite delete_local_file_run. cbn [snd fs set_fs].
      rewrite lookup_delete. by case_decide. }
  destruct (execute_single_action self a w) as [[u|e] w1]; by apply IH.
Qed.

(** A local deletion of the list is carried out, and stays. *)
Lemma execute_deletes actions self w a :
  Forall (fun a => action a = "upload" \/ action a = "delete_local") actions ->
  a ∈ actions ->
  action a = "delete_local" ->
  fs (execute_sync_actions actions self w).2
  !! joinpath (local_dir self) (a_path a) = None.
Proof.
  revert self w. induction actions as [|b rest IH]; intros self w Hall Hin Ha.
  { by apply elem_of_nil in Hin. }
  apply Forall_cons in Hall as [Hb Hrest]. cbn [execute_sync_actions].
  apply elem_of_cons in Hin as [<-|Hin].
  - assert (fs (execute_single_action self a w).2
            !! joinpath (local_dir self) (a_path a) = None) as Hstep.
    { unfold execute_single_action. rewrite Ha.
      change (fs (delete_local_file self (a_path a) w).2
              !! joinpath (local_dir self) (a_path a) = None).
      rewrite delete_local_file_run. cbn [snd fs set_fs].
      apply lookup_delete_eq. }
    destruct (execute_single_action self a w) as [[u|e] w1];
      by apply execute_absent_stays.
  - destruct (execute_single_action self b w) as [[u|e] w1].
    + apply (IH (incr_files_synced self) w1 Hrest Hin Ha).
    + apply (IH (incr_errors self) w1 Hrest Hin Ha).
Qed.

(** X18: when the listing of the remote files fails, [get_remote_files]
    returns no file at all, and the planner reads every local file with
    stored metadata as deleted remotely.  Under a policy other than ['ask']
    the pass then deletes such a file locally: it is gone when the pass
    ends. *)
Theorem failed_listing_deletes_tracked_files self w e s' local_files p l s :
  is_syncing self = false ->
  conflict_resolution self <> "ask" ->
  get_local_files self w = (Return local_files, w) ->
  serve (server w) (ResourcesList "file") = (Raise e, s') ->
  local_files !! p = Some l ->
  file_metadata self !! p = Some s ->
  (get_remote_files self w).1 = Return ∅
  /\ mkAction "delete_local" p "sync_deletion"
     ∈ plan_sync_actions self local_files ∅
  /\ fs (sync_files self w).2 !! joinpath (local_dir self) p = None.
Proof.
  intros Hs Hask Hscan Hserve Hl Hstored.
  split; [by rewrite (get_remote_files_listing_fails _ _ _ _ Hserve)|].
  split; [by apply (plan_without_remote_deletes _ _ _ l s)|].
  destruct (sync_files_run _ _ _ Hs Hscan)
    as (remote_files & w2 & Hremote & Hfs & _ & ->).
  rewrite (get_remote_files_listing_fails _ _ _ _ Hserve) in Hremote.
  injection Hremote as <- <-.
  cbn zeta. cbn [snd fs set_fs].
  set (self0 := set_is_syncing self true).
  set (actions := plan_sync_actions self0 local_files ∅).
  set (w2 := {| fs := fs w; now := now w; now_ts := now_ts w;
                walk_error := walk_error w; server := s';
                sent := (sent w ++ [ResourcesList "file"])%list |}).
  pose proof (execute_sync_actions_frame actions self0 w2) as (Hld & _).
  assert (Forall (fun a => action a = "upload" \/ action a = "delete_local")
            actions) as Hkinds by by apply plan_without_remote.
  assert (mkAction "delete_local" p "sync_deletion" ∈ actions) as Hin
    by by apply (plan_without_remote_deletes self0 _ _ l s).
  pose proof (execute_deletes actions self0 w2 _ Hkinds Hin eq_refl) as Hgone.
  cbn [a_path local_dir self0 set_is_syncing] in Hgone.
  rewrite lookup_insert_ne; [exact Hgone|].
  unfold metadata_file. cbn [metadata_update set_file_metadata local_dir].
  rewrite Hld. cbn [local_dir self0 set_is_syncing].
  intros Heq%joinpath_inj. subst p.
  pose proof (get_local_files_keys self w _ w _ Hscan (mk_is_Some _ _ Hl))
    as Hdot.
  discriminate Hdot.
Qed.

End ListingMore.

(** ** More on the incremental path *)

Section IncrementalMore.

Context {E : Externals}.

Implicit Types (self : FileSyncManager) (w : World) (p rel key : string).








(** The stored metadata after a move of a pass hold every path they
    held. *)
Lemma pass_step_keeps_entries pass self w p :
  is_Some (file_metadata self !! p) ->
  is_Some (file_metadata (pass_step pass self w).1.2 !! p).
Proof.
  intros Hp. destruct pass as [|local_files remote_files|local_files actions];
    cbn [pass_step].
  - destruct (get_local_files self w) as [[local_files|e] w1].
    + by destruct (get_remote_files self w1) as [[remote_files|e] w2].
    + done.
  - done.
  - pose proof (execute_and_persist_frame local_files actions self w) as H.
    destruct (execute_and_persist _ _ _ w) as [[r self1] w1].
    destruct H as (_ & _ & Hfm & _). cbn [fst snd].
    assert (is_Some (file_metadata self1 !! p)) as Hsome.
    { rewrite Hfm. destruct Hp as [m Hm].
      destruct (local_files !! p) as [m'|] eqn:Hl.
      - exists m'. by apply lookup_union_Some_l.
      - exists m. by rewrite lookup_union_r. }
    by destruct r.
Qed.

(** X21: whatever the event loop runs (requests for a pass, moves of a
    pass in progress, local changes), a path that has stored metadata keeps
    stored metadata: no code path of the process removes an entry, so the
    snapshot only grows. *)
Theorem stored_entries_survive_events s evs p :
  is_Some (file_metadata (mgr s) !! p) ->
  is_Some (file_metadata (mgr (system_run s evs)) !! p).
Proof.
  revert s. induction evs as [|ev evs IH]; intros s Hp; [exact Hp|].
  apply IH. destruct ev as [|i|file_path change_type]; cbn [system_step].
  - by destruct (is_syncing (mgr s)).
  - destruct (running s !! i) as [pass|]; [|exact Hp].
    pose proof (pass_step_keeps_entries pass (mgr s) (world s) p Hp) as H.
    by destruct (pass_step pass (mgr s) (world s)) as [[next self'] w'].
  - pose proof (handle_local_change_frame (mgr s) file_path change_type
                  (world s)) as (_ & Hfm & _).
    destruct (handle_local_change _ _ _ _) as [self' w'].
    cbn [fst mgr] in *. by rewrite Hfm.
Qed.

End IncrementalMore.

(** ** More on the protocol client *)

Section ProtocolMore.

Import MCPClient.

Implicit Types (c : Client) (data : Inbound) (id : Z) (req : Request).

Lemma send_request_begin_fresh c req :
  ids_fresh c -> ids_fresh (send_request_begin c req).2.
Proof.
  unfold ids_fresh, send_request_begin. intros Hc id.
  destruct (ws c) as [ch|]; [|apply Hc].
  assert (is_Some (<[message_id c := futures_made c]> (pending_requests c)
                   !! id) -> (id < message_id c + 1)%Z) as Hnew.
  { rewrite lookup_insert. case_decide as Hid; [intros _; lia|].
    intros Hin%Hc. lia. }
  by destruct (ch_open ch).
Qed.

Lemma handle_message_fresh c data :
  ids_fresh c -> ids_fresh (handle_message c data).1.
Proof.
  unfold ids_fresh, handle_message. intros Hc id.
  destruct (in_id data) as [id'|]; [|apply Hc].
  destruct (pending_requests c !! id'); [|apply Hc].
  cbn. rewrite lookup_delete. case_decide; [by intros [? ?]|apply Hc].
Qed.

Lemma send_request_finish_fresh c id req a :
  ids_fresh c -> ids_fresh (send_request_finish c id req a).2.
Proof.
  unfold ids_fresh, send_request_finish. intros Hc id'.
  destruct a; try apply Hc.
  cbn. rewrite lookup_delete. case_decide; [by intros [? ?]|apply Hc].
Qed.

Lemma client_step_fresh c ev : ids_fresh c -> ids_fresh (client_step c ev).
Proof.
  destruct ev; cbn [client_step];
    auto using send_request_begin_fresh, handle_message_fresh,
      send_request_finish_fresh.
Qed.

Lemma client_step_counter c ev :
  (message_id c <= message_id (client_step c ev))%Z.
Proof.
  destruct ev as [req|data|id req]; cbn [client_step].
  - destruct (send_request_begin_counter c req) as [-> | ->]; lia.
  - unfold handle_message. destruct (in_id data) as [id|]; [|done].
    by destruct (pending_requests c !! id).
  - done.
Qed.

(** X22: ids are never handed out twice.  Starting from a client where
    every pending id is below the counter (a new client is one), after any
    sequence of sends, incoming messages and timeouts every pending id is
    still below the counter, the counter has not gone down, and the id the
    next request takes has no waiter: a request never replaces the waiter of
    another. *)
Theorem request_ids_are_fresh c evs :
  ids_fresh c ->
  let c' := client_run c evs in
  ids_fresh c'
  /\ (message_id c <= message_id c')%Z
  /\ pending_requests c' !! message_id c' = None.
Proof.
  intros Hc. cbn zeta.
  assert (ids_fresh (client_run c evs)
          /\ (message_id c <= message_id (client_run c evs))%Z) as [Hf Hle].
  { revert c Hc. induction evs as [|ev evs IH]; intros c Hc; [by split|].
    destruct (IH (client_step c ev) (client_step_fresh c ev Hc)) as [Hf Hle].
    split; [exact Hf|]. pose proof (client_step_counter c ev).
    unfold client_run in *. cbn [fold_left]. lia. }
  split; [exact Hf|]. split; [exact Hle|].
  destruct (pending_requests (client_run c evs)
            !! message_id (client_run c evs)) as [future|] eqn:Hp; [|done].
  specialize (Hf _ (mk_is_Some _ _ Hp)). lia.
Qed.

(** X23: responses are routed by id, not by order of arrival: with two
    requests waiting, the responses coming in the other order settle each
    future with the content of its own response, an error object as an
    exception and a result as a value, and take both ids out of
    [pending_requests], leaving the other waiters alone. *)
Theorem responses_routed_by_id c i j fi fj code message rj :
  pending_requests c !! i = Some fi ->
  pending_requests c !! j = Some fj ->
  i <> j ->
  let late := mkInbound (Some j) None (Some rj) None in
  let early := mkInbound (Some i) (Some (code, message)) None None in
  (handle_messages c [late; early]).2
  = [(fj, Return rj); (fi, Raise (MCPError code message))]
  /\ pending_requests (handle_messages c [late; early]).1
     = delete i (delete j (pending_requests c))
  /\ ws (handle_messages c [late; early]).1 = ws c.
Proof.
  intros Hi Hj Hij. cbn zeta.
  assert (handle_messages c
            [mkInbound (Some j) None (Some rj) None;
             mkInbound (Some i) (Some (code, message)) None None]
          = ({| ws := ws c; message_id := message_id c;
                pending_requests := delete i (delete j (pending_requests c));
                is_initialized := is_initialized c;
                subscriptions := subscriptions c;
                futures_made := futures_made c |},
             [(fj, Return rj); (fi, Raise (MCPError code message))])) as ->.
  { cbn [handle_messages]. unfold handle_message.
    cbn [in_id in_error in_result]. rewrite Hj.
    cbn [pending_requests]. rewrite lookup_delete_ne by congruence.
    by rewrite Hi. }
  by repeat split.
Qed.

(** X24: a future is settled at most once: after a message with some id
    has been handled, whether or not a request was waiting for it, a further
    message with that id changes nothing and settles nothing. *)
Theorem duplicate_response_is_dropped c data data' id :
  in_id data = Some id ->
  in_id data' = Some id ->
  handle_message (handle_message c data).1 data'
  = ((handle_message c data).1, None).
Proof.
  intros Hid Hid'. apply (handle_message_no_waiter _ _ id Hid').
  unfold handle_message. rewrite Hid.
  destruct (pending_requests c !! id) eqn:Hp; [|exact Hp].
  cbn. apply lookup_delete_eq.
Qed.

(** X25: sending without a connection.  Before [connect], [send_request]
    raises [ConnectionError] and the client is as it was.  [disconnect]
    closes the websocket but leaves it in [self.ws]; a request sent then
    passes the connection test, takes an id, registers its waiter and only
    then fails with [ConnectionClosed] when it writes: nothing is written,
    and the waiter stays in [pending_requests]. *)
Theorem send_request_without_connection c req :
  (ws c = None ->
   send_request_begin c req
   = (Raise (ConnectionError "Not connected to MCP server"), c))
  /\ (forall ch,
         ws c = Some ch ->
         let closed := disconnect c in
         ws closed = Some (mkChannel false (ch_sent ch))
         /\ (send_request_begin closed req).1 = Raise ConnectionClosed
         /\ ws (send_request_begin closed req).2 = ws closed
         /\ pending_requests (send_request_begin closed req).2
            !! message_id c = Some (futures_made c)
         /\ message_id (send_request_begin closed req).2
            = (message_id c + 1)%Z).
Proof.
  split.
  - intros Hws. unfold send_request_begin. by rewrite Hws.
  - intros ch Hws. cbn zeta. unfold disconnect. rewrite Hws.
    unfold send_request_begin. cbn.
    by rewrite lookup_insert_eq.
Qed.

Lemma send_request_alone_reply c ch req body :
  ws c = Some ch ->
  ch_open ch = true ->
  send_request_alone c req (Some body)
  = (match rb_error body with
     | Some (code, message) => Raise (MCPError code message)
     | None => Return (default empty_response (rb_result body))
     end,
     {| ws := Some (mkChannel true (ch_sent ch ++ [(message_id c, req)]));
        message_id := (message_id c + 1)%Z;
        pending_requests := delete (message_id c) (pending_requests c);
        is_initialized := is_initialized c;
        subscriptions := subscriptions c;
        futures_made := S (futures_made c) |}).
Proof.
  intros Hws Hopen. unfold send_request_alone, send_request_begin.
  rewrite Hws, Hopen. unfold handle_message.
  cbn [in_id in_error in_result pending_requests].
  rewrite lookup_insert_eq.
  cbn [ws message_id pending_requests is_initialized subscriptions
         futures_made].
  rewrite delete_insert_eq.
  by destruct (rb_error body) as [[code message]|].
Qed.

Lemma send_request_alone_timeout c ch req :
  ws c = Some ch ->
  ch_open ch = true ->
  send_request_alone c req None
  = (Raise (TimeoutError ("Request " +:+ method_of req +:+ " timed out")),
     {| ws := Some (mkChannel true (ch_sent ch ++ [(message_id c, req)]));
        message_id := (message_id c + 1)%Z;
        pending_requests := delete (message_id c) (pending_requests c);
        is_initialized := is_initialized c;
        subscriptions := subscriptions c;
        futures_made := S (futures_made c) |}).
Proof.
  intros Hws Hopen. unfold send_request_alone, send_request_begin.
  rewrite Hws, Hopen. unfold send_request_finish.
  cbn [ws message_id pending_requests is_initialized subscriptions
         futures_made].
  by rewrite delete_insert_eq.
Qed.

(** X26: [subscribe_to_changes] sends at most once per resource.  On an
    open channel a subscription that the server accepts records the uri; a
    later call for the same path returns without sending anything, whatever
    the server would answer; and a subscription that times out records
    nothing, so that a later call sends again. *)
Theorem subscribe_to_changes_once c ch remote_path body :
  ws c = Some ch ->
  ch_open ch = true ->
  rb_error body = None ->
  "file://" +:+ remote_path ∉ subscriptions c ->
  let done := subscribe_to_changes c remote_path (Some body) in
  let failed := subscribe_to_changes c remote_path None in
  done.1 = Return tt
  /\ "file://" +:+ remote_path ∈ subscriptions done.2
  /\ (forall reply, subscribe_to_changes done.2 remote_path reply = done)
  /\ failed.1 = Raise (TimeoutError "Request resources/subscribe timed out")
  /\ "file://" +:+ remote_path ∉ subscriptions failed.2.
Proof.
  intros Hws Hopen Hok Hnew. cbn zeta. unfold subscribe_to_changes.
  rewrite (bool_decide_eq_false_2 _ Hnew).
  rewrite (send_request_alone_reply _ _ _ _ Hws Hopen), Hok.
  rewrite (send_request_alone_timeout _ _ _ Hws Hopen).
  cbn [fst snd subscriptions set_subscriptions].
  split; [done|]. split; [by apply elem_of_union_l, elem_of_singleton_2|].
  split; [|by split].
  intros reply. rewrite bool_decide_eq_true_2; [done|].
  by apply elem_of_union_l, elem_of_singleton_2.
Qed.

(** X27: [connect] returns [True] exactly when the websocket opens and
    the handshake gets a response that is not an error; [is_initialized]
    is set exactly then.  When the handshake fails, by an error or a
    timeout, [connect] returns [False] with the websocket it opened still
    open in [self.ws]: it does not close it. *)
Theorem connect_outcome c dial reply :
  let result := connect c dial reply in
  (result.1 = true <->
   exists ch body,
     dial = Return ch /\ ch_open ch = true
     /\ reply = Some body /\ rb_error body = None)
  /\ is_initialized result.2 = is_initialized c || result.1
  /\ (forall ch, dial = Return ch -> ch_open ch = true ->
                 result.1 = false ->
                 ws result.2
                 = Some (mkChannel true
                           (ch_sent ch ++ [(message_id c, Initialize)]))).
Proof.
  cbn zeta. unfold connect. destruct dial as [ch|e].
  2:{ cbn [fst snd]. split; [|split].
      - split; [discriminate|]. by intros (? & ? & [=] & _).
      - by rewrite orb_false_r.
      - by intros ? [=]. }
  unfold initialize. destruct (ch_open ch) eqn:Hopen.
  - destruct reply as [body|].
    + rewrite (send_request_alone_reply (set_ws c (Some ch)) ch _ body
                 eq_refl Hopen).
      destruct (rb_error body) as [[code message]|] eqn:Herr;
        cbn [fst snd is_initialized set_is_initialized set_ws ws message_id].
      * split; [|split; [by rewrite orb_false_r | by intros ? [= <-] ? ?]].
        split; [discriminate|].
        intros (? & ? & _ & _ & [= <-] & ?). congruence.
      * split; [|split; [by rewrite orb_true_r | by intros ? [= <-] ? ?]].
        split; [|done]. intros _. by exists ch, body.
    + rewrite (send_request_alone_timeout (set_ws c (Some ch)) ch _
                 eq_refl Hopen).
      cbn [fst snd is_initialized set_ws ws message_id].
      split; [|split; [by rewrite orb_false_r | by intros ? [= <-] ? ?]].
      split; [discriminate|]. by intros (? & ? & _ & _ & [=] & _).
  - unfold send_request_alone, send_request_begin.
    cbn [ws set_ws]. rewrite Hopen.
    cbn [fst snd is_initialized set_ws].
    split; [|split; [by rewrite orb_false_r|]].
    + split; [discriminate|]. intros (? & ? & [= <-] & ? & _). congruence.
    + intros ? [= <-] ? ?. congruence.
Qed.

End ProtocolMore.

(** ** More on the remote listing *)

Section RemoteMore.

Context {E : Externals}.

Implicit Types (self : FileSyncManager) (w : World) (p rel tail : string).

Lemma scheme_has_colon s :
  startswith "file://" s = true -> contains_char ":" s = true.
Proof.
  unfold startswith.
  destruct (strip_prefix "file://" s) as [r|] eqn:Hr; [|discriminate].
  intros _. apply strip_prefix_Some in Hr as ->.
  by rewrite contains_char_app.
Qed.

Lemma replace_from_no_colon p :
  contains_char ":" p = false -> replace_from "file://" "" 0 p = p.
Proof.
  induction p as [|c p IH]; [reflexivity|]. intros Hp.
  cbn [replace_from].
  destruct (startswith "file://" (String c p)) eqn:Hstart.
  - apply scheme_has_colon in Hstart. congruence.
  - cbn [contains_char] in Hp.
    destruct (Ascii.eqb ":" c); [discriminate|]. by rewrite (IH Hp).
Qed.

(** The path [list_files] makes of the uri of a path. *)
Lemma replace_scheme p :
  contains_char ":" p = false -> replace "file://" "" ("file://" +:+ p) = p.
Proof.
  intros Hp. unfold replace.
  change (replace_from "file://" "" 0 ("file://" +:+ p))
    with ("" +:+ replace_from "file://" "" 0 p).
  by rewrite append_nil_l, replace_from_no_colon.
Qed.

(** X28: the key of a remote file is what follows the remote directory in
    its uri, without leading slashes.  For a listing of one file resource
    whose uri is the scheme, the remote directory and a rest, the remote scan
    is the one entry at the key [rest.lstrip('/')], with size 0, no checksum
    and the parsed time.  So the file [upload_file] writes for a relative
    path is listed under that path; and a file of another directory whose
    name only starts like the remote directory is listed too, under the rest
    of its path. *)
Theorem remote_listing_key self w response s' name modified mtime tail :
  contains_char ":" (remote_dir self +:+ tail) = false ->
  serve (server w) (ResourcesList "file") = (Return response, s') ->
  resp_resources response
  = [mkResource "file" ("file://" +:+ remote_dir self +:+ tail) name modified] ->
  parse_timestamp modified = Some mtime ->
  (get_remote_files self w).1
  = Return {[ lstrip_slash tail
              := FileMetadata_init (lstrip_slash tail) 0 mtime "" ]}.
Proof.
  intros Hcolon Hserve Hres Htime.
  unfold get_remote_files, try_except, list_files, mbind, M_bind.
  rewrite send_request_run, Hserve. cbn [fst snd]. unfold mret, M_ret.
  rewrite Hres. cbn [omap list_omap res_type res_uri res_name
    res_lastModified].
  assert (String.eqb "file" "file" = true) as -> by reflexivity.
  assert (startswith ("file://" +:+ remote_dir self)
            ("file://" +:+ remote_dir self +:+ tail) = true) as ->.
  { unfold startswith. by rewrite <- append_assoc, strip_prefix_app. }
  cbn [andb fst remote_files_loop fi_path fi_lastModified].
  rewrite (replace_scheme _ Hcolon), strip_prefix_app, Htime.
  by rewrite insert_empty.
Qed.

(** X29: a modification date that does not parse ends the remote scan:
    the files listed before it are kept and the files listed after it are
    not looked at, so that they count as missing on the remote side. *)
Theorem remote_listing_stops_at_bad_date self before bad after acc tail :
  strip_prefix (remote_dir self) (fi_path bad) = Some tail ->
  parse_timestamp (fi_lastModified bad) = None ->
  remote_files_loop self (before ++ bad :: after) acc
  = remote_files_loop self before acc.
Proof.
  intros Hprefix Hdate. revert acc.
  induction before as [|file_info before IH]; intros acc.
  - cbn [app remote_files_loop]. by rewrite Hprefix, Hdate.
  - cbn [app remote_files_loop].
    destruct (strip_prefix (remote_dir self) (fi_path file_info));
      [|apply IH].
    destruct (parse_timestamp (fi_lastModified file_info)); [apply IH|done].
Qed.

End RemoteMore.

(** ** More on conflict copies *)

Section KeepBothMore.

Context {E : Externals}.

Implicit Types (self : FileSyncManager) (w : World) (p rel : string).

(** The name of the copy depends on the clock through the text of
    [strftime] only. *)
Lemma conflict_same_second dt dt' p :
  strftime_compact dt = strftime_compact dt' ->
  conflict_suffix dt p = conflict_suffix dt' p
  /\ conflict_path_of dt p = conflict_path_of dt' p.
Proof. unfold conflict_suffix, conflict_path_of. by intros ->. Qed.

(** [create_conflict_copy] on a file that is there: the copy, then the
    download. *)
Lemma create_conflict_copy_run self rel w f :
  fs w !! joinpath (local_dir self) rel = Some f ->
  path_name rel <> "" ->
  let conflict_path :=
    conflict_path_of (now w) (joinpath (local_dir self) rel) in
  create_conflict_copy self rel w
  = download_file self rel
      (set_fs w (<[conflict_path := mkFile (f_text f) (now_ts w)]>
                   (<[conflict_path := mkFile "" (now_ts w)]> (fs w)))).
Proof.
  intros Hf Hname. cbn zeta.
  assert (path_name (joinpath (local_dir self) rel) <> "") as Hname'
    by by rewrite path_name_joinpath.
  unfold create_conflict_copy.
  rewrite (with_suffix_conflict _ _ Hname').
  unfold mbind, M_bind, path_exists. rewrite Hf.
  rewrite bool_decide_eq_true_2 by eauto.
  unfold read_text at 1. rewrite Hf. unfold write_text at 1.
  unfold read_text. cbn [fs set_fs].
  rewrite lookup_insert_ne by apply conflict_path_fresh. rewrite Hf.
  unfold write_text at 1. cbn [fs set_fs now_ts]. reflexivity.
Qed.

(** X30: the name of a conflict copy has the resolution of a second.  When
    [keep_both] has run for a file and runs again for it while the clock
    still shows the same second, the second run writes its copy over the
    first: the copy then holds the text the first run downloaded, and the
    text that was set aside first is no longer in it. *)
Theorem keep_both_twice_in_a_second self rel w f w1 again :
  fs w !! joinpath (local_dir self) rel = Some f ->
  path_name rel <> "" ->
  create_conflict_copy self rel w = (Return tt, w1) ->
  fs again = fs w1 ->
  strftime_compact (now again) = strftime_compact (now w) ->
  let local_path := joinpath (local_dir self) rel in
  let conflict_path := conflict_path_of (now w) local_path in
  exists content,
    fs w1 !! local_path = Some (mkFile content (now_ts w))
    /\ fs w1 !! conflict_path = Some (mkFile (f_text f) (now_ts w))
    /\ fs (create_conflict_copy self rel again).2 !! conflict_path
       = Some (mkFile content (now_ts again)).
Proof.
  intros Hf Hname Hfirst Hfs Hsecond. cbn zeta.
  rewrite (create_conflict_copy_run _ _ _ _ Hf Hname) in Hfirst.
  cbn zeta in Hfirst.
  destruct (download_file_result _ _ _ _ Hfirst)
    as (content & w0 & _ & Hlocal).
  cbn [now_ts set_fs] in Hlocal.
  pose proof (download_file_fs _ _ _ _ _ Hfirst _
                (conflict_path_fresh (now w) (joinpath (local_dir self) rel)))
    as Hcopy.
  cbn [fs set_fs] in Hcopy. rewrite lookup_insert_eq in Hcopy.
  exists content. split; [exact Hlocal|]. split; [exact Hcopy|].
  assert (fs again !! joinpath (local_dir self) rel
          = Some (mkFile content (now_ts w))) as Hagain
    by by rewrite Hfs.
  rewrite (create_conflict_copy_run _ _ _ _ Hagain Hname). cbn zeta.
  destruct (conflict_same_second _ _ (joinpath (local_dir self) rel) Hsecond)
    as [_ ->].
  match goal with
  | |- fs (download_file self rel ?w0).2 !! _ = _ =>
      destruct (download_file self rel w0) as [r w2] eqn:Hdown
  end.
  cbn [snd].
  rewrite (download_file_fs _ _ _ _ _ Hdown)
    by apply conflict_path_fresh.
  cbn [fs set_fs f_text]. by rewrite lookup_insert_eq.
Qed.

End KeepBothMore.

(** ** The statements at work in the concrete setting *)

(** The policies on a concrete manager. *)
Lemma conflict_policy_witness :
  handle_delete_conflict demo_manager "a.md" "remote_deleted"
  = mkAction "skip" "a.md" "delete_conflict"
  /\ handle_content_conflict
       (set_conflict_resolution demo_manager "remote_wins") "a.md"
       (demo_meta 2 "h1") (demo_meta 3 "")
     = mkAction "download" "a.md" "conflict_remote_wins".
Proof.
  split.
  - apply (conflict_policy demo_manager "a.md" "remote_deleted"
             (demo_meta 2 "h1") (demo_meta 3 "")).
    reflexivity.
  - apply (conflict_policy (set_conflict_resolution demo_manager "remote_wins")
             "a.md" "remote_deleted" (demo_meta 2 "h1") (demo_meta 3 "")).
    reflexivity.
Defined.

(** A converged path, and a path no scan holds. *)
Lemma planner_nothing_to_reconcile_witness :
  determine_sync_action demo_manager "a.md"
    (Some (demo_meta 2 "h1")) (Some (demo_meta 2 "")) (Some (demo_meta 2 "h1"))
  = None
  /\ Forall (fun a => a_path a <> "ghost.md")
       (plan_sync_actions demo_manager
          {[ "a.md" := demo_meta 2 "h1" ]} {[ "b.md" := demo_meta 3 "" ]}).
Proof.
  split.
  - apply (proj1 (planner_nothing_to_reconcile demo_manager)); reflexivity.
  - apply (proj2 (planner_nothing_to_reconcile demo_manager)); reflexivity.
Defined.


(** The events of the demo: one pass is in progress, the second request
    was dropped. *)
Lemma one_full_pass_at_a_time_witness :
  guard_ok demo_system
  /\ (exists pass,
         running (system_run demo_system demo_events) = [pass]
         /\ is_syncing (mgr (system_run demo_system demo_events)) = true)
  /\ system_step (system_run demo_system demo_events) RequestSync
     = system_run demo_system demo_events.
Proof.
  assert (guard_ok demo_system) as Hok by reflexivity.
  split; [exact Hok|].
  destruct (one_full_pass_at_a_time demo_system demo_events Hok)
    as ([[_ Hdown]|Hup] & Hdrop & _).
  - vm_compute in Hdown. discriminate Hdown.
  - split; [exact Hup|].
    destruct Hup as (pass & _ & Hflag). by destruct (Hdrop Hflag) as (_ & ? & _).
Defined.

(** A request on the demo client times out while a response for another
    request comes in. *)
Lemma request_timeout_releases_waiter_witness :
  MCPClient.pending_requests
    (MCPClient.send_request_finish
       (MCPClient.handle_messages
          (MCPClient.send_request_begin demo_client
             (ResourcesRead "file:///workspace/synced/a.md")).2
          [demo_inbound]).1
       4 (ResourcesRead "file:///workspace/synced/a.md")
       MCPClient.TimedOut).2
  !! 4%Z = None.
Proof.
  assert (Forall (fun data => MCPClient.in_id data
                              <> Some (MCPClient.message_id demo_client))
            [demo_inbound]) as Hmsgs.
  { constructor; [discriminate | constructor]. }
  destruct (request_timeout_releases_waiter demo_client
              (MCPClient.mkChannel true [])
              (ResourcesRead "file:///workspace/synced/a.md")
              [demo_inbound] eq_refl eq_refl Hmsgs)
    as (_ & _ & _ & _ & _ & Hgone & _).
  exact Hgone.
Defined.



(** A pass keeps the entry of a file that is on neither side any more. *)
Lemma sync_files_merges_local_scan_witness :
  is_Some (file_metadata
             (sync_files (E := demo_externals) demo_manager_tracking
                demo_world).1 !! "old.md").
Proof.
  apply (proj1 (sync_files_merges_local_scan (E := demo_externals)
                  demo_manager_tracking demo_world)).
  exists (demo_meta 1704000000%float "old text"). reflexivity.
Defined.

(** A change of the snapshot file is not acted on. *)
Lemma dot_files_stay_local_witness :
  handle_local_change (E := demo_externals) demo_manager
    "/home/u/notes/.lokus-sync-metadata.json" "modified" demo_world
  = (demo_manager, demo_world).
Proof.
  apply (proj1 (proj2 (proj2 (dot_files_stay_local (E := demo_externals)
                                demo_manager demo_world)))
           ".lokus-sync-metadata.json" "modified").
  reflexivity.
Defined.

(** [keep_both] against the demo server: the remote text is at the path of
    the note, the local text in the copy. *)
Example keep_both_on_demo :
  let w' := (execute_single_action (E := demo_externals) demo_manager
               (mkAction "keep_both" "a.md" "conflict_keep_both")
               demo_world).2 in
  f_text <$> fs w' !! "/home/u/notes/a.md" = Some "remote text"
  /\ f_text <$> fs w' !! "/home/u/notes/a.conflict_local_20240102_030405.md"
     = Some "local text".
Proof. vm_compute. split; reflexivity. Qed.

(** An upload of a file that is not there fails; the two actions after it
    are executed all the same. *)
Example failure_then_success_on_demo :
  let actions := [mkAction "upload" "missing.md" "local_modified";
                  mkAction "skip" "a.md" "delete_conflict";
                  mkAction "download" "a.md" "remote_modified"] in
  let self' := (execute_sync_actions (E := demo_externals) actions
                  demo_manager demo_world).1 in
  files_synced (stats self') = 2%Z /\ errors (stats self') = 1%Z
  /\ snd <$> execution_trace (E := demo_externals) actions demo_manager
               demo_world = [false; true; true].
Proof. vm_compute. repeat split; reflexivity. Qed.

(** ** The further statements in the concrete setting *)

Lemma delete_conflict_follows_deletion_witness :
  determine_sync_action auto_manager "a.md"
    (Some (demo_meta 2 "h1")) None (Some (demo_meta 2 "h1"))
  = Some (mkAction "delete_local" "a.md" "sync_deletion").
Proof.
  apply (delete_conflict_follows_deletion auto_manager "a.md"
           (demo_meta 2 "h1") (demo_meta 3 "") (demo_meta 2 "h1")).
  discriminate.
Defined.

Lemma skips_count_as_synced_witness :
  files_synced
    (stats (execute_sync_actions (E := demo_externals)
              [mkAction "skip" "a.md" "delete_conflict";
               mkAction "skip" "b.md" "conflict_requires_resolution"]
              demo_manager demo_world).1)
  = 2%Z.
Proof.
  apply (skips_count_as_synced (E := demo_externals)
           [mkAction "skip" "a.md" "delete_conflict";
            mkAction "skip" "b.md" "conflict_requires_resolution"]
           demo_manager demo_world).
  repeat constructor.
Defined.


Lemma conflict_copy_is_scanned_witness :
  scan_entry (E := demo_externals) demo_manager
    ("/home/u/notes/a.conflict_local_20240102_030405.md",
     mkFile "local text" 1704164645%float)
  = Some ("a.conflict_local_20240102_030405.md",
          FileMetadata_init "a.conflict_local_20240102_030405.md" 10
            1704164645%float "local text").
Proof.
  apply (conflict_copy_is_scanned (E := demo_externals) demo_manager
           demo_clock "/home/u/notes/a.md"
           (mkFile "local text" 1704164000%float) "a.md"
           (FileMetadata_init "a.md" 10 1704164000%float "local text")
           (mkFile "local text" 1704164645%float)).
  reflexivity.
Defined.

Lemma load_metadata_after_save_witness :
  file_metadata
    (load_metadata (E := codec_externals) demo_manager
       (save_metadata (E := codec_externals) demo_manager_tracking
          codec_world).2).1
  = file_metadata demo_manager_tracking.
Proof.
  apply (load_metadata_after_save (E := codec_externals)
           demo_manager_tracking demo_manager codec_world);
    reflexivity.
Defined.

Lemma failed_scan_only_counts_error_witness :
  sync_files (E := demo_externals) demo_manager unreadable_world
  = (set_is_syncing (incr_errors demo_manager) false, unreadable_world).
Proof.
  apply (failed_scan_only_counts_error (E := demo_externals) demo_manager
           unreadable_world (OSError "Input/output error"));
    reflexivity.
Defined.

Lemma snapshot_file_lags_last_sync_witness :
  last_sync (stats (sync_files (E := demo_externals) demo_manager
                      demo_world).1)
  = Some "2024-01-02T03:04:05".
Proof.
  apply (snapshot_file_lags_last_sync (E := demo_externals) demo_manager
           demo_world); reflexivity.
Defined.

Lemma scanned_file_reads_as_remotely_deleted_witness :
  file_metadata (sync_files (E := demo_externals) demo_manager demo_world).1
  !! "a.md"
  = Some (FileMetadata_init "a.md" 10 1704164000%float "local text").
Proof.
  apply (scanned_file_reads_as_remotely_deleted (E := demo_externals)
           demo_manager demo_world demo_scan "a.md"); reflexivity.
Defined.

Lemma unchanged_file_needs_equal_remote_time_witness :
  determine_sync_action
    (sync_files (E := demo_externals) demo_manager demo_world).1 "a.md"
    (Some (FileMetadata_init "a.md" 10 1704164000%float "local text"))
    (Some (demo_meta 1704164645%float ""))
    (file_metadata (sync_files (E := demo_externals) demo_manager
                      demo_world).1 !! "a.md")
  = Some (mkAction "download" "a.md" "remote_modified").
Proof.
  apply (unchanged_file_needs_equal_remote_time (E := demo_externals)
           demo_manager demo_world demo_scan "a.md"
           (FileMetadata_init "a.md" 10 1704164000%float "local text")
           (demo_meta 1704164645%float "")); reflexivity.
Defined.

Lemma downloaded_file_is_a_conflict_next_witness :
  file_metadata (sync_files (E := demo_externals) demo_manager demo_world).1
  !! "b.md" = None.
Proof.
  apply (downloaded_file_is_a_conflict_next (E := demo_externals)
           demo_manager demo_world demo_scan "b.md"
           (demo_meta 2 "h") (demo_meta 3 "")); reflexivity.
Defined.

Lemma failed_listing_deletes_tracked_files_witness :
  fs (sync_files (E := offline_externals) auto_manager offline_world).2
  !! "/home/u/notes/a.md" = None.
Proof.
  apply (failed_listing_deletes_tracked_files (E := offline_externals)
           auto_manager offline_world (TimeoutError "Request timed out") tt
           demo_scan "a.md"
           (FileMetadata_init "a.md" 10 1704164000%float "local text")
           (FileMetadata_init "a.md" 10 1704164000%float "local text"));
    first [reflexivity | discriminate].
Defined.



Lemma stored_entries_survive_events_witness :
  is_Some (file_metadata
             (mgr (system_run (E := demo_externals)
                     {| mgr := demo_manager_tracking; world := demo_world;
                        running := [] |} demo_events)) !! "old.md").
Proof.
  apply (stored_entries_survive_events (E := demo_externals)
           {| mgr := demo_manager_tracking; world := demo_world;
              running := [] |} demo_events "old.md").
  exists (demo_meta 1704000000%float "old text"). reflexivity.
Defined.

Lemma request_ids_are_fresh_witness :
  MCPClient.pending_requests
    (MCPClient.client_run demo_client
       [MCPClient.Send (ResourcesRead "file:///workspace/synced/a.md");
        MCPClient.Receive demo_inbound;
        MCPClient.Send (ResourcesList "file")])
  !! 6%Z = None.
Proof.
  assert (MCPClient.ids_fresh demo_client) as Hfresh.
  { intros id [future Hid]. discriminate Hid. }
  apply (request_ids_are_fresh demo_client
           [MCPClient.Send (ResourcesRead "file:///workspace/synced/a.md");
            MCPClient.Receive demo_inbound;
            MCPClient.Send (ResourcesList "file")] Hfresh).
Defined.

Lemma responses_routed_by_id_witness :
  (MCPClient.handle_messages demo_client_waiting
     [MCPClient.mkInbound (Some 5%Z) None (Some MCPClient.empty_response)
        None;
      MCPClient.mkInbound (Some 4%Z) (Some ((-32000)%Z, "no such file"))
        None None]).2
  = [(4, Return MCPClient.empty_response);
     (3, Raise (MCPError (-32000) "no such file"))].
Proof.
  apply (responses_routed_by_id demo_client_waiting 4 5 3 4 (-32000)
           "no such file" MCPClient.empty_response);
    first [reflexivity | discriminate].
Defined.

Lemma duplicate_response_is_dropped_witness :
  MCPClient.handle_message
    (MCPClient.handle_message demo_client_waiting
       (MCPClient.mkInbound (Some 4%Z) None (Some MCPClient.empty_response)
          None)).1
    (MCPClient.mkInbound (Some 4%Z) None None None)
  = ((MCPClient.handle_message demo_client_waiting
        (MCPClient.mkInbound (Some 4%Z) None
           (Some MCPClient.empty_response) None)).1, None).
Proof.
  apply (duplicate_response_is_dropped demo_client_waiting _ _ 4);
    reflexivity.
Defined.

Lemma subscribe_to_changes_once_witness :
  "file:///workspace/synced"
  ∈ MCPClient.subscriptions
      (MCPClient.subscribe_to_changes demo_client "/workspace/synced"
         (Some (MCPClient.mkReplyBody None
                  (Some MCPClient.empty_response)))).2.
Proof.
  apply (subscribe_to_changes_once demo_client (MCPClient.mkChannel true [])
           "/workspace/synced"
           (MCPClient.mkReplyBody None (Some MCPClient.empty_response)));
    first [reflexivity | apply not_elem_of_empty].
Defined.

Lemma remote_listing_key_witness :
  (get_remote_files (E := demo_externals) demo_manager demo_world).1
  = Return {[ "a.md" := FileMetadata_init "a.md" 0 1704164645%float "" ]}.
Proof.
  apply (remote_listing_key (E := demo_externals) demo_manager demo_world
           (mkResponse
              [mkResource "file" "file:///workspace/synced/a.md"
                 "/workspace/synced/a.md" "2024-01-02T03:04:05Z"]
              None false)
           (server demo_world) "/workspace/synced/a.md"
           "2024-01-02T03:04:05Z" 1704164645%float "/a.md");
    reflexivity.
Defined.

Lemma remote_listing_stops_at_bad_date_witness :
  remote_files_loop (E := offline_externals) demo_manager
    [mkFileInfo "/workspace/synced/a.md" "a.md"
       "file:///workspace/synced/a.md" "yesterday";
     mkFileInfo "/workspace/synced/b.md" "b.md"
       "file:///workspace/synced/b.md" "2024-01-02T03:04:05Z"] ∅
  = ∅.
Proof.
  apply (remote_listing_stops_at_bad_date (E := offline_externals)
           demo_manager []
           (mkFileInfo "/workspace/synced/a.md" "a.md"
              "file:///workspace/synced/a.md" "yesterday")
           [mkFileInfo "/workspace/synced/b.md" "b.md"
              "file:///workspace/synced/b.md" "2024-01-02T03:04:05Z"]
           ∅ "/a.md"); reflexivity.
Defined.

Lemma keep_both_twice_in_a_second_witness :
  fs (create_conflict_copy (E := demo_externals) demo_manager "a.md"
        (create_conflict_copy (E := demo_externals) demo_manager "a.md"
           demo_world).2).2
  !! "/home/u/notes/a.conflict_local_20240102_030405.md"
  = Some (mkFile "remote text" 1704164645%float).
Proof.
  destruct (keep_both_twice_in_a_second (E := demo_externals) demo_manager
              "a.md" demo_world (mkFile "local text" 1704164000%float)
              (create_conflict_copy (E := demo_externals) demo_manager "a.md"
                 demo_world).2
              (create_conflict_copy (E := demo_externals) demo_manager "a.md"
                 demo_world).2)
    as (content & Hlocal & _ & Hcopy).
  - reflexivity.
  - discriminate.
  - reflexivity.
  - reflexivity.
  - reflexivity.
  - assert (content = "remote text") as ->
      by (vm_compute in Hlocal; congruence).
    exact Hcopy.
Defined.
